(** * Repository scanner: directory tree rendering, content documents and
      the clone/scan/cleanup pipeline of [main.py].

    Python [str] values are modelled as [string]s holding the UTF-8 encoding
    of the text.  Byte-wise lexicographic order on UTF-8 coincides with the
    code-point order Python uses to compare strings, so [String.compare] is
    the comparison of [str]. *)

From Stdlib Require Import String Ascii List ZArith Lia Sorted Permutation.
From stdpp Require Import gmap strings sorting pretty.
Import ListNotations.

Local Open Scope stdpp_scope.

(** ** Python string operations used by [main.py] *)

Module PyStr.

(** [s.startswith(pre)] *)
Definition startswith (pre s : string) : bool := String.prefix pre s.

(** [sub in s] *)
Fixpoint contains (sub s : string) : bool :=
  startswith sub s ||
  match s with
  | "" => false
  | String _ s' => contains sub s'
  end.

(** [s.split(sep)] for a separator of one character.  [cur] holds the
    field being read, reversed. *)
Fixpoint split_go (sep : ascii) (cur : string) (s : string) : list string :=
  match s with
  | "" => [String.rev cur]
  | String c s' =>
      if Ascii.eqb c sep
      then String.rev cur :: split_go sep "" s'
      else split_go sep (String c cur) s'
  end.

Definition split (sep : ascii) (s : string) : list string := split_go sep "" s.

(** [sep.join(l)] *)
Definition join (sep : string) (l : list string) : string := String.concat sep l.

(** [s.replace(old, new)] for a non-empty [old]: scan from the left; at an
    occurrence of [old] emit [new] and skip the characters of [old], so the
    occurrences replaced do not overlap.  [skip] counts the characters of
    the current occurrence still to be dropped. *)
Fixpoint replace_go (old new : string) (skip : nat) (s : string) : string :=
  match s with
  | "" => ""
  | String c s' =>
      match skip with
      | S k => replace_go old new k s'
      | O =>
          if startswith old s
          then new +:+ replace_go old new (String.length old - 1) s'
          else String c (replace_go old new 0 s')
      end
  end.

Definition replace (old new s : string) : string := replace_go old new 0 s.

End PyStr.

(** ** [pathlib.PurePosixPath] *)

Record Path := mkPath {
  root : string;          (* "", "/" or "//" *)
  tail : list string      (* the components after the root *)
}.

Module PurePath.

(** [posixpath.splitroot]: the root and the rest of the string. *)
Definition splitroot (p : string) : string * string :=
  match p with
  | String "/" (String "/" (String "/" r)) => ("/", String "/" (String "/" r))
  | String "/" (String "/" r) => ("//", r)
  | String "/" r => ("/", r)
  | _ => ("", p)
  end.

(** [Path(s)]: components that are empty or "." are dropped. *)
Definition of_string (s : string) : Path :=
  let '(rt, rel) := splitroot s in
  mkPath rt (filter (fun x => negb (String.eqb x "") && negb (String.eqb x "."))
                    (PyStr.split "/" rel)).

(** [str(path)] *)
Definition str (p : Path) : string :=
  let s := root p +:+ PyStr.join "/" (tail p) in
  if String.eqb s "" then "." else s.

(** [path.name] *)
Definition name (p : Path) : string := List.last (tail p) "".

(** [path / child], as [iterdir] builds its results. *)
Definition child (p : Path) (nm : string) : Path :=
  mkPath (root p) (tail p ++ [nm]).

(** [path.parts], the tuple by which pure paths are ordered. *)
Definition parts (p : Path) : list string :=
  if String.eqb (root p) "" then tail p else root p :: tail p.

Fixpoint parts_compare (l1 l2 : list string) : comparison :=
  match l1, l2 with
  | [], [] => Eq
  | [], _ :: _ => Lt
  | _ :: _, [] => Gt
  | x :: l1', y :: l2' =>
      match String.compare x y with
      | Eq => parts_compare l1' l2'
      | c => c
      end
  end.

(** [p <= q] on paths *)
Definition leb (p q : Path) : bool :=
  match parts_compare (parts p) (parts q) with Gt => false | _ => true end.

End PurePath.

(** ** Exceptions and results *)

(** The exceptions the program meets; all are subclasses of [Exception]. *)
Inductive exn :=
  | ValueError (msg : string)
  | FileNotFoundError (msg : string)
  | NotADirectoryError (msg : string)
  | RecursionError (msg : string)
  | OtherError (cls msg : string).

(** [str(e)] *)
Definition exn_str (e : exn) : string :=
  match e with
  | ValueError m | FileNotFoundError m | NotADirectoryError m
  | RecursionError m | OtherError _ m => m
  end.

Inductive outcome (A : Type) :=
  | Return (a : A)
  | Raise (e : exn).
Arguments Return {A} a.
Arguments Raise {A} e.

#[global] Instance outcome_ret : MRet outcome := fun A a => Return a.
#[global] Instance outcome_bind : MBind outcome := fun A B f m =>
  match m with
  | Return a => f a
  | Raise e => Raise e
  end.

(** ** The file system seen by the scanner *)

(** What a path points at.  A directory lists its entries in the order the
    operating system returns them, which is arbitrary.  [Other] stands for
    what is neither a directory nor a regular file (a socket, a dangling
    link).  The tree is finite: there are no link cycles. *)
#[warnings="-register-all"]
Inductive node :=
  | File (content : string)
  | Dir (entries : list (string * node))
  | Other.

Definition is_dir (nd : node) : bool :=
  match nd with Dir _ => true | _ => false end.

Definition is_file (nd : node) : bool :=
  match nd with File _ => true | _ => false end.

(** A path object met during the walk, with what it points at. *)
Definition entry : Type := Path * node.

(** [list(path.iterdir())] *)
Definition iterdir (path : Path) (nd : node) : outcome (list entry) :=
  match nd with
  | Dir es => Return ((fun e => (PurePath.child path e.1, e.2)) <$> es)
  | _ => Raise (NotADirectoryError
                  ("[Errno 20] Not a directory: '" +:+ PurePath.str path +:+ "'"))
  end.

(** Number of nested directory levels below and including [nd]. *)
Fixpoint height (nd : node) : nat :=
  match nd with
  | Dir es => S (max_list_with (fun e => height e.2) es)
  | _ => O
  end.

(** ** [DirectoryStructureScanner] *)

Definition nl : string := String "010" "".

Module DirectoryStructureScanner.

Definition entry_le (a b : entry) : Prop := PurePath.leb a.1 b.1 = true.

#[global] Instance entry_le_dec : RelDecision entry_le.
Proof. intros a b. unfold entry_le. apply _. Defined.

(** [sorted(l)] on a list of paths.  The paths [iterdir] yields are pairwise
    different, so every correct sorting algorithm returns the same list. *)
Definition sorted (l : list entry) : list entry := merge_sort entry_le l.

Fixpoint enumerate_from {A} (i : Z) (l : list A) : list (Z * A) :=
  match l with
  | [] => []
  | x :: l' => (i, x) :: enumerate_from (i + 1)%Z l'
  end.

(** [enumerate(l)] *)
Definition enumerate {A} (l : list A) : list (Z * A) := enumerate_from 0%Z l.

Definition connector (is_last : bool) : string :=
  if is_last then "└── " else "├── ".

Definition indent (is_last : bool) : string :=
  if is_last then "    " else "│   ".

(** [path.name or str(path)] *)
Definition display (path : Path) : string :=
  if String.eqb (PurePath.name path) "" then PurePath.str path
  else PurePath.name path.

(** [p.name.startswith('.')] *)
Definition hidden (p : Path) : bool := PyStr.startswith "." (PurePath.name p).

Definition keep_dir (d : entry) : bool :=
  negb (hidden d.1) && negb (String.eqb (PurePath.name d.1) "__pycache__").

Definition keep_file (f : entry) : bool := negb (hidden f.1).

(** [not l] on a list *)
Definition is_empty {A} (l : list A) : bool :=
  match l with [] => true | _ => false end.

(** The loop over [enumerate(dirs)]; [rec] is the recursive call. *)
Fixpoint dirs_loop (rec : Path -> node -> string -> bool -> option (outcome string))
    (next_prefix : string) (len_dirs : Z) (not_files : bool)
    (items : list (Z * entry)) (output : string) : option (outcome string) :=
  match items with
  | [] => Some (Return output)
  | (i, dir_path) :: rest =>
      let is_last_entry := (i =? len_dirs - 1)%Z && not_files in
      match rec dir_path.1 dir_path.2 next_prefix is_last_entry with
      | Some (Return s) =>
          dirs_loop rec next_prefix len_dirs not_files rest (output +:+ s)
      | other => other
      end
  end.

(** The loop over [enumerate(files)]. *)
Fixpoint files_loop (next_prefix : string) (len_files : Z)
    (items : list (Z * entry)) (output : string) : string :=
  match items with
  | [] => output
  | (i, file_path) :: rest =>
      let is_last_file := (i =? len_files - 1)%Z in
      files_loop next_prefix len_files rest
        (output +:+ next_prefix +:+ connector is_last_file
                +:+ PurePath.name file_path.1 +:+ nl)
  end.

(** [generate_tree(path, prefix, is_last)].  [fuel] bounds the depth of the
    recursion; [None] means it ran out. *)
Fixpoint generate_tree (fuel : nat) (path : Path) (nd : node)
    (prefix : string) (is_last : bool) : option (outcome string) :=
  match fuel with
  | O => None
  | S fuel' =>
      let output := prefix +:+ connector is_last +:+ display path +:+ nl in
      match iterdir path nd with
      | Raise e => Some (Raise e)
      | Return entries =>
          let dirs := sorted (filter (fun d => is_dir d.2) entries) in
          let files := sorted (filter (fun f => is_file f.2) entries) in
          let dirs := filter keep_dir dirs in
          let files := filter keep_file files in
          let next_prefix := prefix +:+ indent is_last in
          match dirs_loop (generate_tree fuel') next_prefix
                  (Z.of_nat (length dirs)) (is_empty files)
                  (enumerate dirs) output with
          | Some (Return output) =>
              Some (Return (files_loop next_prefix (Z.of_nat (length files))
                              (enumerate files) output))
          | other => other
          end
      end
  end.

(** [DirectoryStructureScanner(root_path).generate_tree()]: the defaults
    [prefix=""], [is_last=True], on what [root_path] points at ([None]
    when nothing is there).  The fuel covers the whole tree, so the last
    branch is never taken. *)
Definition generate_tree_root (root_path : Path) (at_root : option node)
    : outcome string :=
  match at_root with
  | None =>
      Raise (FileNotFoundError
               ("[Errno 2] No such file or directory: '"
                  +:+ PurePath.str root_path +:+ "'"))
  | Some nd =>
      match generate_tree (S (height nd)) root_path nd "" true with
      | Some r => r
      | None => Raise (RecursionError "maximum recursion depth exceeded")
      end
  end.

End DirectoryStructureScanner.

(** ** [core.file_scanner.FileInfo] *)

Module FileInfo.
(** Modelled from the spec: the class [FileInfo] of [core.file_scanner] is
    not among the sources.  The spec's FileEntry has a relative path and a
    content that is text or absent; these are the two fields [main.py]
    reads. *)
Record t := mk {
  path : string;             (* shown through [str] in the heading *)
  content : option string    (* [None]: the file could not be read *)
}.
End FileInfo.

(** ** The world the pipeline runs in *)

(** [disk] maps the string form of a location to the tree stored there;
    [stdout] holds the lines printed so far. *)
Record World := mkWorld {
  disk : gmap string node;
  stdout : list string
}.

(** What [git.Repo.clone_from] does to the directory it is given: it fills it,
    or it fails and leaves something ([Some]) or nothing ([None]) there. *)
Inductive clone_result :=
  | Cloned (entries : list (string * node))
  | CloneFailed (e : exn) (left : option (list (string * node))).

(** The collaborators of [main.py] that are not part of it, taken as
    parameters: the operating system, git, the clock, and the modules
    [config.settings] and [core.file_scanner].  The scanner only reads the
    disk. *)
Record Env := mkEnv {
  mkdtemp : outcome string;                 (* [tempfile.mkdtemp()] *)
  clone_from : string -> clone_result;      (* [git.Repo.clone_from(url, dir)] *)
  scan_files : gmap string node -> Path -> gset string
               -> outcome (list FileInfo.t);  (* [FileScanner(dir, exts).scan_files()], read-only *)
  get_timestamp : string;                   (* [Settings.get_timestamp()] *)
  DEFAULT_EXTENSIONS : gset string;         (* [Settings.DEFAULT_EXTENSIONS] *)
  now_long : string;                        (* [datetime.now()] as '%Y-%m-%d %H:%M:%S' *)
  now_compact : string;                     (* [datetime.now()] as '%Y%m%d_%H%M%S' *)
  open_error : string -> option exn         (* whether [open(name, 'w')] fails *)
}.

Definition key (p : Path) : string := PurePath.str p.

(** [path.exists()] *)
Definition path_exists (w : World) (p : Path) : bool :=
  bool_decide (is_Some (disk w !! key p)).

Definition set_disk (d : gmap string node) (w : World) : World :=
  mkWorld d (stdout w).

(** [print(line)] *)
Definition print (line : string) (w : World) : World :=
  mkWorld (disk w) (stdout w ++ [line]).

(** [shutil.rmtree(p)]: removes [p] and all below it, which on a POSIX
    system succeeds for a directory the process created; raises when nothing
    is there. *)
Definition rmtree (p : Path) (w : World) : World * outcome unit :=
  if path_exists w p
  then (set_disk (delete (key p) (disk w)) w, Return tt)
  else (w, Raise (FileNotFoundError
                    ("[Errno 2] No such file or directory: '" +:+ key p +:+ "'"))).

(** [with open(name, 'w') as f: f.write(data)] *)
Definition write_file (env : Env) (name data : string) (w : World)
    : World * outcome unit :=
  match open_error env name with
  | Some e => (w, Raise e)
  | None =>
      (set_disk (<[key (PurePath.of_string name) := File data]> (disk w)) w,
       Return tt)
  end.

(** ** [MarkdownGenerator] *)

Module MarkdownGenerator.

Record t := mk {
  target_path : string;
  timestamp : string;
  temp_dir : option Path;
  is_github : bool;
  target_extensions : gset string
}.

Definition set_temp_dir (d : Path) (self : t) : t :=
  mk (target_path self) (timestamp self) (Some d) (is_github self)
     (target_extensions self).

(** [__init__]; an extension set that is [None] or empty is falsy. *)
Definition init (env : Env) (target_path : string)
    (target_extensions : option (gset string)) : t :=
  {| target_path := target_path;
     timestamp := get_timestamp env;
     temp_dir := None;
     is_github :=
       (PyStr.startswith "http://" target_path
        || PyStr.startswith "https://" target_path)
       && PyStr.contains "github.com" target_path;
     target_extensions :=
       match target_extensions with
       | Some exts => if decide (exts = ∅) then DEFAULT_EXTENSIONS env else exts
       | None => DEFAULT_EXTENSIONS env
       end |}.

Definition _get_name (self : t) : string :=
  if is_github self
  then PyStr.replace ".git" "" (List.last (PyStr.split "/" (target_path self)) "")
  else PurePath.name (PurePath.of_string (target_path self)).

Definition _create_structure_markdown (env : Env) (self : t)
    (tree_structure : string) : string :=
  let name := _get_name self in
  let content := "# " +:+ name +:+ " - ディレクトリ構造" +:+ nl +:+ nl in
  let content := content +:+ ("生成日時: " +:+ now_long env +:+ nl +:+ nl) in
  let content := content +:+ ("```" +:+ nl) in
  let content := content +:+ tree_structure in
  let content := content +:+ ("```" +:+ nl) in
  content.

(** The body of the loop of [_create_content_markdown]. *)
Definition add_file (content : string) (file : FileInfo.t) : string :=
  let content := content +:+ ("## " +:+ FileInfo.path file +:+ nl) in
  let content := content +:+ ("------------" +:+ nl) in
  let content :=
    match FileInfo.content file with
    | Some text => content +:+ text
    | None => content +:+ "# Failed to read content"
    end in
  content +:+ (nl +:+ nl).

Definition _create_content_markdown (files : list FileInfo.t) : string :=
  fold_left add_file files "".

(** Lines 52-59: the working directory is obtained. *)
Definition acquire (env : Env) (self : t) (w : World)
    : t * World * outcome Path :=
  if is_github self then
    match mkdtemp env with
    | Raise e => (self, w, Raise e)
    | Return d =>
        let tmp := PurePath.of_string d in
        let w := set_disk (<[key tmp := Dir []]> (disk w)) w in
        let self := set_temp_dir tmp self in
        match clone_from env (target_path self) with
        | CloneFailed e (Some es) =>
            (self, set_disk (<[key tmp := Dir es]> (disk w)) w, Raise e)
        | CloneFailed e None =>
            (self, set_disk (delete (key tmp) (disk w)) w, Raise e)
        | Cloned es =>
            (self, set_disk (<[key tmp := Dir es]> (disk w)) w, Return tmp)
        end
    end
  else
    let work_dir := PurePath.of_string (target_path self) in
    if negb (path_exists w work_dir)
    then (self, w,
          Raise (ValueError ("Directory not found: " +:+ PurePath.str work_dir)))
    else (self, w, Return work_dir).

(** Lines 61-73: tree, scan, documents. *)
Definition scan_and_build (env : Env) (self : t) (w : World) (work_dir : Path)
    : outcome (string * string * list FileInfo.t) :=
  tree_structure ←
    DirectoryStructureScanner.generate_tree_root work_dir (disk w !! key work_dir);
  files ← scan_files env (disk w) work_dir (target_extensions self);
  let structure_md := _create_structure_markdown env self tree_structure in
  let content_md := _create_content_markdown files in
  mret (content_md, structure_md, files).

(** The [finally] block, lines 75-78: when [is_github] holds, [temp_dir] is
    set and the directory exists, it is removed. *)
Definition release (self : t) (w : World) : World * outcome unit :=
  if is_github self then
    match temp_dir self with
    | Some d => if path_exists w d then rmtree d w else (w, Return tt)
    | None => (w, Return tt)
    end
  else (w, Return tt).

(** [generate_markdowns]: the [try] block, then the [finally] block; an
    exception raised by the [finally] block replaces the result. *)
Definition generate_markdowns (env : Env) (self : t) (w : World)
    : t * World * outcome (string * string * list FileInfo.t) :=
  let '(self, w, acquired) := acquire env self w in
  let result := work_dir ← acquired; scan_and_build env self w work_dir in
  let '(w, released) := release self w in
  (self, w, released ≫= fun _ => result).

End MarkdownGenerator.

(** ** [main] *)

Definition usage : string := "Usage: python main.py <github_url or directory_path>".

Definition error_line (e : exn) : string := "エラーが発生しました: " +:+ exn_str e.

(** [main()] with [sys.argv = argv]; the result is the value handed to
    [exit]. *)
Definition main (env : Env) (argv : list string) (w : World) : World * Z :=
  if negb (length argv =? 2)%nat then (print usage w, 1%Z)
  else
    let target_path := nth 1 argv "" in
    let w := print ("Processing: " +:+ target_path) w in
    let generator := MarkdownGenerator.init env target_path None in
    let '(generator, w, result) :=
      MarkdownGenerator.generate_markdowns env generator w in
    match result with
    | Raise e => (print (error_line e) w, 1%Z)
    | Return (content_md, structure_md, _) =>
        let timestamp := now_compact env in
        let name := MarkdownGenerator._get_name generator in
        let content_file := name +:+ "_content_" +:+ timestamp +:+ ".md" in
        let structure_file := name +:+ "_structure_" +:+ timestamp +:+ ".md" in
        match write_file env content_file content_md w with
        | (w, Raise e) => (print (error_line e) w, 1%Z)
        | (w, Return _) =>
            match write_file env structure_file structure_md w with
            | (w, Raise e) => (print (error_line e) w, 1%Z)
            | (w, Return _) =>
                let w := print "生成完了:" w in
                let w := print ("- ファイル内容: " +:+ content_file) w in
                let w := print ("- ディレクトリ構造: " +:+ structure_file) w in
                (w, 0%Z)
            end
        end
    end.

(** ** What the specification says a rendered tree looks like *)

Module TreeSpec.
Import DirectoryStructureScanner.

(** An entry is dropped when its name starts with a dot, or when it is a
    directory named [__pycache__]. *)
Definition dropped (e : entry) : bool :=
  PyStr.startswith "." (PurePath.name e.1)
  || (is_dir e.2 && String.eqb (PurePath.name e.1) "__pycache__").

Definition shown_dir (e : entry) : bool := is_dir e.2 && negb (dropped e).
Definition shown_file (e : entry) : bool := is_file e.2 && negb (dropped e).

(** Lexicographic order of the names. *)
Definition name_le (a b : entry) : Prop :=
  String.le (PurePath.name a.1) (PurePath.name b.1).

(** The two connectors, and what stands before the lines below an entry. *)
Definition terminal : string := "└── ".
Definition continuation : string := "├── ".

(** The connector of an entry: the terminal one for the last entry of its
    level, the continuation one for every earlier entry. *)
Definition mark (last : bool) : string :=
  if last then terminal else continuation.

(** Below the last entry of a level the lines are indented by four spaces,
    below an earlier one by a bar and three spaces. *)
Definition below (last : bool) : string :=
  if last then "    " else "│   ".

(** What a directory is called on its line: its name, or the whole path
    when the name is empty. *)
Definition label (path : Path) : string :=
  match PurePath.name path with
  | EmptyString => PurePath.str path
  | String _ _ as n => n
  end.

(** [renders path nd prefix last s]: [s] is the rendering of the directory
    [nd] at [path], which is the last entry of its own level exactly when
    [last] holds.  Its first line names the directory after its connector;
    below come the shown subdirectories in sorted order, each rendered in
    full, then the shown files in sorted order; of all these the last one,
    and only that one, gets the terminal connector. *)
Inductive renders : Path -> node -> string -> bool -> string -> Prop :=
  | renders_dir path es prefix last entries ds fs body :
      entries = (fun e => (PurePath.child path e.1, e.2)) <$> es ->
      ds ≡ₚ filter shown_dir entries -> Sorted name_le ds ->
      fs ≡ₚ filter shown_file entries -> Sorted name_le fs ->
      renders_level (prefix +:+ below last) (ds ++ fs) body ->
      renders path (Dir es) prefix last
        (prefix +:+ mark last +:+ label path +:+ nl +:+ body)
with renders_level : string -> list entry -> string -> Prop :=
  | level_nil np : renders_level np [] ""
  | level_dir np d rest last s body :
      is_dir d.2 = true ->
      (last = true <-> rest = []) ->
      renders d.1 d.2 np last s ->
      renders_level np rest body ->
      renders_level np (d :: rest) (s +:+ body)
  | level_file np f rest last body :
      is_file f.2 = true ->
      (last = true <-> rest = []) ->
      renders_level np rest body ->
      renders_level np (f :: rest)
        (np +:+ mark last +:+ PurePath.name f.1 +:+ nl +:+ body).

End TreeSpec.

(** ** What the specification says is shown for an exception *)

Module MessageSpec.

(** The text of an exception: the message it was raised with. *)
Definition text (e : exn) : string :=
  match e with
  | ValueError msg => msg
  | FileNotFoundError msg => msg
  | NotADirectoryError msg => msg
  | RecursionError msg => msg
  | OtherError _ msg => msg
  end.

End MessageSpec.

(** ** What the specification says a content document looks like *)

Module ContentSpec.

Definition absence_marker : string := "# Failed to read content".

(** The subsection of one entry: heading with the path, separator line,
    content or absence marker, blank-line spacer. *)
Definition subsection (f : FileInfo.t) : string :=
  "## " +:+ FileInfo.path f +:+ nl
    +:+ "------------" +:+ nl
    +:+ default absence_marker (FileInfo.content f)
    +:+ nl +:+ nl.

(** The subsections of all entries, one after the other. *)
Definition document (files : list FileInfo.t) : string :=
  foldr (fun f rest => subsection f +:+ rest) "" files.

End ContentSpec.

(** ** What the specification says the title of a remote target is *)

Module NameSpec.

Definition has_slash (s : string) : Prop :=
  In "/"%char (list_ascii_of_string s).

(** [seg] is what follows the last '/' of [url] (all of [url] when it has
    none). *)
Definition last_segment (url seg : string) : Prop :=
  ~ has_slash seg /\
  (url = seg \/ exists pre, url = pre +:+ "/" +:+ seg).

(** [without_git s r]: [r] is [s] with every occurrence of ".git" cut out,
    wherever it stands. *)
Inductive without_git : string -> string -> Prop :=
  | without_git_none s :
      PyStr.contains ".git" s = false -> without_git s s
  | without_git_cut a b r :
      PyStr.contains ".git" a = false ->
      without_git b r ->
      without_git (a +:+ ".git" +:+ b) (a +:+ r).

End NameSpec.

(** ** Sample worlds *)

Module Sample.

(** A small repository. *)
Definition repo : node :=
  Dir [("b.txt", File "text");
       ("a", Dir [("y.md", File "# y"); ("x.py", File "x = 1")]);
       ("__pycache__", Dir [("x.pyc", File "")]);
       (".git", Dir [])].

(** A disk holding the repository at [repo] and a regular file at
    [notes.txt]. *)
Definition world : World :=
  mkWorld (<["repo" := repo]> (<["notes.txt" := File "hello"]> ∅)) [].

Definition files : list FileInfo.t :=
  [FileInfo.mk "a/x.py" (Some "x = 1"); FileInfo.mk "a/y.md" None].

(** [mkdtemp] creates [/tmp/tmpab12]; the clone then fails, leaving a
    half-written checkout behind. *)
Definition env_clone_fails : Env :=
  {| mkdtemp := Return "/tmp/tmpab12";
     clone_from := fun _ =>
       CloneFailed (OtherError "GitCommandError" "Cmd('git') failed")
                   (Some [(".git", Dir [("HEAD", File "")])]);
     scan_files := fun _ _ _ => Return files;
     get_timestamp := "20240101_000000";
     DEFAULT_EXTENSIONS := {[ ".py"; ".md" ]};
     now_long := "2024-01-01 00:00:00";
     now_compact := "20240101_000000";
     open_error := fun _ => None |}.

(** The same, with a clone that succeeds. *)
Definition env_clone_ok : Env :=
  {| mkdtemp := Return "/tmp/tmpab12";
     clone_from := fun _ => Cloned [("a", Dir [("x.py", File "x = 1")])];
     scan_files := fun _ _ _ => Return files;
     get_timestamp := "20240101_000000";
     DEFAULT_EXTENSIONS := {[ ".py"; ".md" ]};
     now_long := "2024-01-01 00:00:00";
     now_compact := "20240101_000000";
     open_error := fun _ => None |}.

Definition url : string := "https://github.com/user/user.github.io.git".

End Sample.

(** ** [app.py] *)

Module App.
Import MarkdownGenerator.

(** The body of the loop of [StreamlitFileWriter.create_markdown]. *)
Definition append_file (content : list string) (file_info : FileInfo.t)
    : list string :=
  let content := content ++ ["## " +:+ FileInfo.path file_info] in
  let content := content ++ ["------------"] in
  let content :=
    match FileInfo.content file_info with
    | Some text => content ++ [text]
    | None => content ++ ["# Failed to read content"]
    end in
  content ++ [nl].

(** [StreamlitFileWriter.create_markdown] *)
Definition create_markdown (files : list FileInfo.t) : string :=
  let content := fold_left append_file files [] in
  PyStr.join nl content.

(** The keys of [st.session_state] that the scan button and the result
    section use; [None] is Python's [None].  [R] is the type of what
    [LLMService.format_code_content] returns. *)
Record SessionState (R : Type) := mkSession {
  repo_content : option R;
  structure_md : option string;
  content_md : option string
}.
Arguments mkSession {R} _ _ _.
Arguments repo_content {R} _.
Arguments structure_md {R} _.
Arguments content_md {R} _.

(** What the page shows after the click: [st.success] or [st.error]. *)
Inductive message :=
  | success (text : string)
  | error (text : string).

(** The extensions whose checkbox is ticked in one group. *)
Definition ticked (exts : gmap string bool) : gset string :=
  dom (filter (fun kv => kv.2 = true) exts).

(** Lines 126-131: the ticked extensions of the three groups, or the default
    set when none is ticked. *)
Definition selected_extensions (env : Env)
    (selected_prog selected_config selected_doc : gmap string bool)
    : gset string :=
  let selected :=
    ticked selected_prog ∪ ticked selected_config ∪ ticked selected_doc in
  if decide (selected = ∅) then DEFAULT_EXTENSIONS env else selected.

(** Lines 122-147: what a click on the scan button does.
    [format_code_content] stands for [LLMService.format_code_content], which
    is not among the sources. *)
Definition on_scan {R : Type} (env : Env)
    (format_code_content : list FileInfo.t -> outcome R)
    (selected_prog selected_config selected_doc : gmap string bool)
    (repo_url : string) (ss : SessionState R) (w : World)
    : SessionState R * World * list message :=
  let selected_extensions :=
    selected_extensions env selected_prog selected_config selected_doc in
  let generator := init env repo_url (Some selected_extensions) in
  let '(generator, w, result) := generate_markdowns env generator w in
  match result with
  | Raise e => (ss, w, [error (error_line e)])
  | Return (content, structure, files) =>
      let formatted_content := create_markdown files in
      let ss := mkSession (repo_content ss) (structure_md ss)
                          (Some formatted_content) in
      let ss := mkSession (repo_content ss) (Some structure) (content_md ss) in
      match format_code_content files with
      | Raise e => (ss, w, [error (error_line e)])
      | Return formatted =>
          (mkSession (Some formatted) (structure_md ss) (content_md ss), w,
           [success ("スキャン完了: " +:+ pretty (length files)
                       +:+ "個のファイルを検出")])
      end
  end.

(** Truth value of a session entry: [None] and the empty string are falsy. *)
Definition truthy (o : option string) : bool :=
  match o with
  | Some s => negb (String.eqb s "")
  | None => false
  end.

(** Line 150: whether the result section is drawn. *)
Definition results_shown {R : Type} (ss : SessionState R) : bool :=
  truthy (structure_md ss) && truthy (content_md ss).

End App.

(** ** Trees that look the same to the renderer *)

Module TreeView.

(** An entry of a directory that the renderer lists: a file or a directory
    whose name has no leading dot, and no directory named [__pycache__]. *)
Definition shown (e : string * node) : bool :=
  negb (PyStr.startswith "." e.1)
  && (is_file e.2 || (is_dir e.2 && negb (String.eqb e.1 "__pycache__"))).

Definition visible (es : list (string * node)) : list (string * node) :=
  filter shown es.

(** Two trees have the same view when, level by level, their listed entries
    agree in name and kind, in whatever order the directories list them and
    whatever the files hold. *)
#[warnings="-register-all"]
Inductive same_view : node -> node -> Prop :=
  | same_view_file c c' : same_view (File c) (File c')
  | same_view_other : same_view Other Other
  | same_view_dir es es' vs :
      visible es ≡ₚ vs ->
      Forall2 (fun a b => a.1 = b.1 /\ same_view a.2 b.2) vs (visible es') ->
      same_view (Dir es) (Dir es').

(** The listed entries of every directory have pairwise different names, as
    on a real file system. *)
#[warnings="-register-all"]
Inductive tidy : node -> Prop :=
  | tidy_file c : tidy (File c)
  | tidy_other : tidy Other
  | tidy_dir es :
      NoDup (visible es).*1 ->
      Forall (fun e => tidy e.2) (visible es) ->
      tidy (Dir es).

End TreeView.

(** ** More sample worlds *)

Module Sample2.

(** [Sample.repo] as another listing could show it: other order, other
    hidden entries, other file contents. *)
Definition repo_relisted : node :=
  Dir [(".gitignore", File "*.pyc");
       ("a", Dir [("x.py", File "x = 2"); ("y.md", File "")]);
       ("b.txt", File "")].

(** A directory with nothing the renderer lists. *)
Definition only_hidden : node :=
  Dir [(".git", Dir [("HEAD", File "ref")]);
       ("__pycache__", Dir [("x.pyc", File "")]);
       (".env", File "KEY=1")].

(** [Sample.env_clone_ok], except that the structure file of a run on
    [repo] cannot be opened. *)
Definition env_structure_unwritable : Env :=
  {| mkdtemp := Return "/tmp/tmpab12";
     clone_from := fun _ => Cloned [("a", Dir [("x.py", File "x = 1")])];
     scan_files := fun _ _ _ => Return Sample.files;
     get_timestamp := "20240101_000000";
     DEFAULT_EXTENSIONS := {[ ".py"; ".md" ]};
     now_long := "2024-01-01 00:00:00";
     now_compact := "20240101_000000";
     open_error := fun name =>
       if String.eqb name "repo_structure_20240101_000000.md"
       then Some (OtherError "PermissionError" "[Errno 13] Permission denied")
       else None |}.

End Sample2.

(** ** Auxiliary notions for the proofs *)

Module Aux.

(** The path object [iterdir] makes of a directory entry. *)
Definition as_entry (path : Path) (e : string * node) : entry :=
  (PurePath.child path e.1, e.2).

(** Two entries the renderer cannot tell apart, given what the recursive
    call [rec] returns on them. *)
Definition alike
    (rec : Path -> node -> string -> bool -> option (outcome string))
    (a b : entry) : Prop :=
  a.1 = b.1 /\ is_dir a.2 = is_dir b.2 /\ is_file a.2 = is_file b.2
  /\ forall pre l, rec a.1 a.2 pre l = rec b.1 b.2 pre l.

(** The four list items [create_markdown] appends for one entry. *)
Definition chunk (f : FileInfo.t) : list string :=
  ["## " +:+ FileInfo.path f; "------------";
   default ContentSpec.absence_marker (FileInfo.content f); nl].

(** The name of an output file of [main]: [f"{name}{kind}{stamp}.md"]. *)
Definition output_name (name kind stamp : string) : string :=
  name +:+ kind +:+ stamp +:+ ".md".

End Aux.

(** * Properties *)

(** ** Strings *)

Module PyStrFacts.
Import PyStr.

Lemma app_cons (a : ascii) (s t : string) :
  String a s +:+ t = String a (s +:+ t).
Proof. reflexivity. Qed.

Lemma app_nil_r (s : string) : s +:+ "" = s.
Proof. induction s as [|a s IH]; [reflexivity|]. by rewrite app_cons, IH. Qed.

Lemma app_assoc (s t u : string) : (s +:+ t) +:+ u = s +:+ (t +:+ u).
Proof.
  induction s as [|a s IH]; [reflexivity|]. by rewrite !app_cons, IH.
Qed.

Lemma length_app (s t : string) :
  String.length (s +:+ t) = (String.length s + String.length t)%nat.
Proof.
  induction s as [|a s IH]; [reflexivity|].
  rewrite app_cons. simpl. by rewrite IH.
Qed.

Lemma startswith_app (pre s : string) : startswith pre (pre +:+ s) = true.
Proof.
  unfold startswith. induction pre as [|a pre IH].
  - by destruct s.
  - rewrite app_cons. simpl. destruct (ascii_dec a a); [apply IH | done].
Qed.

Lemma startswith_cons (a b : ascii) (pre s : string) :
  startswith (String a pre) (String b s)
    = if Ascii.eqb a b then startswith pre s else false.
Proof.
  unfold startswith. simpl.
  by destruct (ascii_dec a b), (Ascii.eqb_spec a b).
Qed.

Lemma startswith_inv (pre s : string) :
  startswith pre s = true -> exists rest, s = pre +:+ rest.
Proof.
  unfold startswith. revert s.
  induction pre as [|a pre IH]; intros s H.
  - by exists s.
  - destruct s as [|b s]; simpl in H; [done|].
    destruct (ascii_dec a b) as [->|]; [|done].
    destruct (IH _ H) as [rest ->]. by exists rest.
Qed.

Lemma compare_refl (s : string) : String.compare s s = Eq.
Proof.
  pose proof (String.compare_antisym s s) as H.
  destruct (String.compare s s); simpl in H; congruence.
Qed.

End PyStrFacts.

(** ** Order of sibling paths *)

Module PathFacts.
Import PurePath DirectoryStructureScanner TreeSpec.

Lemma parts_compare_antisym (l1 l2 : list string) :
  parts_compare l1 l2 = CompOpp (parts_compare l2 l1).
Proof.
  revert l2. induction l1 as [|x l1 IH]; intros [|y l2]; simpl; try done.
  rewrite (String.compare_antisym y x).
  destruct (String.compare x y); simpl; auto.
Qed.

Lemma parts_compare_snoc (l : list string) (a b : string) :
  parts_compare (l ++ [a]) (l ++ [b]) = String.compare a b.
Proof.
  induction l as [|x l IH]; simpl.
  - by destruct (String.compare a b).
  - by rewrite PyStrFacts.compare_refl.
Qed.

Lemma leb_child (p : Path) (a b : string) :
  leb (child p a) (child p b) = String.leb a b.
Proof.
  unfold leb, parts, child. simpl.
  destruct (String.eqb (root p) "").
  - by rewrite parts_compare_snoc.
  - by rewrite !app_comm_cons, parts_compare_snoc.
Qed.

Lemma name_child (p : Path) (nm : string) : name (child p nm) = nm.
Proof. unfold name, child. simpl. apply last_last. Qed.

#[global] Instance entry_le_total : Total entry_le.
Proof.
  intros a b. unfold entry_le, leb.
  rewrite (parts_compare_antisym (parts b.1)).
  destruct (parts_compare (parts a.1) (parts b.1)); simpl; auto.
Qed.

#[global] Instance name_le_trans : Transitive name_le.
Proof. intros a b c. unfold name_le. apply transitivity. Qed.

(** Among the entries of one directory, paths are ordered by name. *)
Lemma entry_le_siblings (p : Path) (a b : entry) :
  (exists nm, a.1 = child p nm) -> (exists nm, b.1 = child p nm) ->
  entry_le a b -> name_le a b.
Proof.
  intros [na Ha] [nb Hb]. unfold entry_le, name_le, String.le.
  rewrite Ha, Hb, leb_child, !name_child. by intros ->.
Qed.

Lemma Sorted_siblings (p : Path) (l : list entry) :
  Forall (fun e => exists nm, e.1 = child p nm) l ->
  Sorted entry_le l -> Sorted name_le l.
Proof.
  induction 1 as [|a l Ha Hl IH]; intros Hs; [constructor|].
  apply Sorted_inv in Hs as [Hs Hhd]. constructor; [auto|].
  destruct Hhd as [|b l' Hab]; constructor.
  apply Forall_cons in Hl as [Hb _]. by eapply entry_le_siblings.
Qed.

Lemma StronglySorted_filter {A} (R : relation A) (P : A -> Prop)
    `{!forall x, Decision (P x)} (l : list A) :
  StronglySorted R l -> StronglySorted R (filter P l).
Proof.
  induction 1 as [|a l Hl IH Ha]; [constructor|].
  rewrite filter_cons. destruct (decide (P a)); [|done].
  constructor; [done|].
  apply Forall_forall. intros x [_ Hx]%list_elem_of_filter.
  by eapply Forall_forall in Ha.
Qed.

Lemma Sorted_filter {A} (R : relation A) `{!Transitive R} (P : A -> Prop)
    `{!forall x, Decision (P x)} (l : list A) :
  Sorted R l -> Sorted R (filter P l).
Proof.
  intros Hs. apply StronglySorted_Sorted, StronglySorted_filter.
  by apply Sorted_StronglySorted.
Qed.

End PathFacts.

(** ** The tree renderer meets its specification *)

Module TreeFacts.
Import PurePath DirectoryStructureScanner TreeSpec PathFacts.

Lemma is_last_index {A} (i len : Z) (rest : list A) :
  (i + Z.of_nat (length (A:=A) rest) + 1 = len)%Z ->
  (i =? len - 1)%Z = is_empty rest.
Proof.
  intros Hlen. destruct rest as [|x rest]; simpl in *.
  - apply Z.eqb_eq. lia.
  - apply Z.eqb_neq. lia.
Qed.

Lemma is_empty_iff {A} (l : list A) : is_empty l = true <-> l = [].
Proof. by destruct l. Qed.

Lemma files_loop_renders (np : string) (len : Z) (rest : list entry) :
  forall (i : Z),
    Forall (fun f => is_file f.2 = true) rest ->
    (i + Z.of_nat (length rest) = len)%Z ->
    exists body,
      renders_level np rest body
      /\ forall out,
           files_loop np len (enumerate_from i rest) out = out +:+ body.
Proof.
  induction rest as [|f rest IH]; intros i Hfiles Hlen.
  - exists "". split; [constructor|].
    intros out. by rewrite PyStrFacts.app_nil_r.
  - apply Forall_cons in Hfiles as [Hf Hfiles].
    destruct (IH (i + 1)%Z Hfiles) as (body & Hbody & Hrun).
    { simpl in Hlen. lia. }
    exists (np +:+ connector (is_empty rest) +:+ name f.1 +:+ nl +:+ body).
    split; [by apply (level_file np f rest (is_empty rest));
              [|apply is_empty_iff|]|].
    intros out. simpl.
    rewrite (is_last_index i len rest) by (simpl in Hlen; lia).
    rewrite Hrun. by rewrite !PyStrFacts.app_assoc.
Qed.

Lemma dirs_loop_renders
    (rec : Path -> node -> string -> bool -> option (outcome string))
    (np : string) (len : Z) (fs : list entry) (fbody : string)
    (rest : list entry) :
  renders_level np fs fbody ->
  forall (i : Z),
    Forall (fun d => is_dir d.2 = true /\
              forall b, exists s, rec d.1 d.2 np b = Some (Return s)
                                  /\ renders d.1 d.2 np b s) rest ->
    (i + Z.of_nat (length rest) = len)%Z ->
    exists body,
      renders_level np (rest ++ fs) (body +:+ fbody)
      /\ forall out,
           dirs_loop rec np len (is_empty fs) (enumerate_from i rest) out
             = Some (Return (out +:+ body)).
Proof.
  intros Hfs. induction rest as [|d rest IH]; intros i Hdirs Hlen.
  - exists "". split; [done|].
    intros out. by rewrite PyStrFacts.app_nil_r.
  - apply Forall_cons in Hdirs as [[Hd Hrec] Hdirs].
    destruct (Hrec (is_empty rest && is_empty fs)) as (s & Hs & Hrs).
    destruct (IH (i + 1)%Z Hdirs) as (body & Hbody & Hrun).
    { simpl in Hlen. lia. }
    exists (s +:+ body). split.
    + rewrite PyStrFacts.app_assoc. simpl.
      apply (level_dir np d (rest ++ fs) (is_empty rest && is_empty fs));
        [done| |done|done].
      rewrite andb_true_iff, !is_empty_iff. split.
      * by intros [-> ->].
      * by intros [-> ->]%app_eq_nil.
    + intros out. simpl.
      rewrite (is_last_index i len rest) by (simpl in Hlen; lia).
      rewrite Hs, Hrun. by rewrite PyStrFacts.app_assoc.
Qed.

Lemma height_entry (es : list (string * node)) (e : string * node) :
  e ∈ es -> (height e.2 <= max_list_with (fun e => height e.2) es)%nat.
Proof. induction 1; simpl; lia. Qed.

Lemma shown_dir_iff (e : entry) :
  keep_dir e /\ is_dir e.2 <-> shown_dir e.
Proof.
  unfold keep_dir, shown_dir, dropped, hidden.
  destruct (is_dir e.2), (PyStr.startswith "." (name e.1)),
    (String.eqb (name e.1) "__pycache__"); simpl; tauto.
Qed.

Lemma shown_file_iff (e : entry) :
  keep_file e /\ is_file e.2 <-> shown_file e.
Proof.
  unfold keep_file, shown_file, dropped, hidden.
  destruct e as [p [c|es|]]; simpl;
    destruct (PyStr.startswith "." (name p)); simpl; tauto.
Qed.

Section level.
Context (path : Path) (es : list (string * node)).
Let entries : list entry := (fun e => (child path e.1, e.2)) <$> es.

Lemma entries_siblings (P : entry -> Prop) `{!forall x, Decision (P x)} :
  Forall (fun e => exists nm, e.1 = child path nm)
         (sorted (filter P entries)).
Proof.
  apply Forall_forall. intros e He.
  unfold sorted in He. rewrite merge_sort_Permutation in He.
  apply list_elem_of_filter in He as [_ He].
  apply list_elem_of_fmap in He as (x & -> & _). by exists x.1.
Qed.

Lemma dirs_permutation :
  filter keep_dir (sorted (filter (fun d => is_dir d.2) entries))
    ≡ₚ filter shown_dir entries.
Proof.
  unfold sorted. rewrite merge_sort_Permutation, list_filter_filter.
  by rewrite (list_filter_iff _ shown_dir entries shown_dir_iff).
Qed.

Lemma files_permutation :
  filter keep_file (sorted (filter (fun f => is_file f.2) entries))
    ≡ₚ filter shown_file entries.
Proof.
  unfold sorted. rewrite merge_sort_Permutation, list_filter_filter.
  by rewrite (list_filter_iff _ shown_file entries shown_file_iff).
Qed.

Lemma kept_sorted (P Q : entry -> Prop) `{!forall x, Decision (P x)}
    `{!forall x, Decision (Q x)} :
  Sorted name_le (filter Q (sorted (filter P entries))).
Proof.
  apply Sorted_filter; [apply _|].
  apply (Sorted_siblings path); [apply entries_siblings|].
  apply Sorted_merge_sort, _.
Qed.

Lemma kept_elem (P Q : entry -> Prop) `{!forall x, Decision (P x)}
    `{!forall x, Decision (Q x)} (e : entry) :
  e ∈ filter Q (sorted (filter P entries)) ->
  P e /\ (height e.2 < height (Dir es))%nat.
Proof.
  intros [_ He]%list_elem_of_filter.
  unfold sorted in He. rewrite merge_sort_Permutation in He.
  apply list_elem_of_filter in He as [HP He]. split; [done|].
  apply list_elem_of_fmap in He as (x & -> & Hx).
  apply height_entry in Hx. simpl. lia.
Qed.
End level.

Lemma generate_tree_dir (fuel : nat) (path : Path) (es : list (string * node))
    (prefix : string) (is_last : bool) :
  generate_tree (S fuel) path (Dir es) prefix is_last =
    let entries := (fun e => (child path e.1, e.2)) <$> es in
    let ds := filter keep_dir (sorted (filter (fun d => is_dir d.2) entries)) in
    let fs := filter keep_file (sorted (filter (fun f => is_file f.2) entries)) in
    let np := prefix +:+ indent is_last in
    match dirs_loop (generate_tree fuel) np (Z.of_nat (length ds))
            (is_empty fs) (enumerate_from 0%Z ds)
            (prefix +:+ connector is_last +:+ display path +:+ nl) with
    | Some (Return output) =>
        Some (Return (files_loop np (Z.of_nat (length fs))
                        (enumerate_from 0%Z fs) output))
    | other => other
    end.
Proof. reflexivity. Qed.

Lemma dirs_loop_mono
    (rec1 rec2 : Path -> node -> string -> bool -> option (outcome string))
    (np : string) (len : Z) (not_files : bool) (items : list (Z * entry)) :
  (forall p nd pre b r, rec1 p nd pre b = Some r -> rec2 p nd pre b = Some r) ->
  forall out r,
    dirs_loop rec1 np len not_files items out = Some r ->
    dirs_loop rec2 np len not_files items out = Some r.
Proof.
  intros Hrec. induction items as [|[i d] items IH]; intros out r; [done|].
  simpl. destruct (rec1 d.1 d.2 np _) as [[s|e]|] eqn:H1; [| |done].
  - rewrite (Hrec _ _ _ _ _ H1). apply IH.
  - by rewrite (Hrec _ _ _ _ _ H1).
Qed.

(** A result obtained with some fuel is the result with any larger fuel. *)
Lemma generate_tree_fuel_mono (fuel : nat) :
  forall (fuel' : nat) (path : Path) (nd : node) (prefix : string)
         (is_last : bool) (r : outcome string),
    (fuel <= fuel')%nat ->
    generate_tree fuel path nd prefix is_last = Some r ->
    generate_tree fuel' path nd prefix is_last = Some r.
Proof.
  induction fuel as [|fuel IH]; intros fuel' path nd prefix is_last r Hle;
    [done|].
  destruct fuel' as [|fuel']; [lia|].
  destruct nd as [c|es|]; [done| |done].
  rewrite !generate_tree_dir. cbv zeta.
  destruct (dirs_loop (generate_tree fuel) _ _ _ _ _) as [[out|e]|] eqn:Hd;
    [| |done].
  - eapply dirs_loop_mono in Hd as ->; [done|].
    intros. eapply IH; [lia|done].
  - eapply dirs_loop_mono in Hd as ->; [done|].
    intros. eapply IH; [lia|done].
Qed.

Lemma display_label (path : Path) : display path = label path.
Proof. unfold display, label. by destruct (name path). Qed.

(** With fuel for the whole tree, a directory is rendered, and rendered as
    specified. *)
Lemma generate_tree_renders (fuel : nat) :
  forall (path : Path) (es : list (string * node)) (prefix : string)
         (is_last : bool),
    (height (Dir es) <= fuel)%nat ->
    exists s,
      generate_tree fuel path (Dir es) prefix is_last = Some (Return s)
      /\ renders path (Dir es) prefix is_last s.
Proof.
  induction fuel as [|fuel IH]; intros path es prefix is_last Hfuel.
  { simpl in Hfuel. lia. }
  rewrite generate_tree_dir. cbv zeta.
  set (entries := (fun e => (child path e.1, e.2)) <$> es).
  set (ds := filter keep_dir (sorted (filter (fun d => is_dir d.2) entries))).
  set (fs := filter keep_file (sorted (filter (fun f => is_file f.2) entries))).
  set (np := prefix +:+ indent is_last).
  set (header := prefix +:+ connector is_last +:+ display path +:+ nl).
  destruct (files_loop_renders np (Z.of_nat (length fs)) fs 0%Z)
    as (fbody & Hfbody & Hfiles); [|lia|].
  { apply Forall_forall. intros f Hf.
    apply kept_elem in Hf as [Hf _]. by apply Is_true_true. }
  destruct (dirs_loop_renders (generate_tree fuel) np (Z.of_nat (length ds))
              fs fbody ds Hfbody 0%Z) as (dbody & Hlevel & Hdirs); [|lia|].
  { apply Forall_forall. intros d Hd.
    apply kept_elem in Hd as [Hdir Hh].
    apply Is_true_true in Hdir. split; [done|]. intros b.
    destruct d as [p [c|des|]]; try done.
    apply IH. simpl in *. lia. }
  rewrite Hdirs, Hfiles.
  exists (header +:+ dbody +:+ fbody). split.
  { by rewrite PyStrFacts.app_assoc. }
  unfold header. rewrite !PyStrFacts.app_assoc, display_label.
  eapply renders_dir with (entries := entries) (ds := ds) (fs := fs).
  - done.
  - apply dirs_permutation.
  - apply kept_sorted.
  - apply files_permutation.
  - apply kept_sorted.
  - exact Hlevel.
Qed.

End TreeFacts.

(** ** The renderer always returns *)

Module RootFacts.
Import PurePath DirectoryStructureScanner TreeSpec TreeFacts.

Lemma generate_tree_root_dir (path : Path) (es : list (string * node)) :
  exists s,
    generate_tree_root path (Some (Dir es)) = Return s
    /\ renders path (Dir es) "" true s.
Proof.
  destruct (generate_tree_renders (S (height (Dir es))) path es "" true)
    as (s & Hs & Hr); [lia|].
  exists s. split; [|done]. unfold generate_tree_root. by rewrite Hs.
Qed.

Lemma generate_tree_root_not_dir (path : Path) (nd : node) :
  is_dir nd = false ->
  generate_tree_root path (Some nd)
    = Raise (NotADirectoryError
               ("[Errno 20] Not a directory: '" +:+ str path +:+ "'")).
Proof. by destruct nd. Qed.

(** The fuel [generate_tree_root] supplies is enough: the recursion never
    runs out. *)
Lemma generate_tree_root_fuel (path : Path) (nd : node) (prefix : string)
    (is_last : bool) :
  exists r,
    forall fuel, (S (height nd) <= fuel)%nat ->
      generate_tree fuel path nd prefix is_last = Some r.
Proof.
  destruct nd as [c|es|].
  - eexists. intros [|fuel] Hle; [lia | reflexivity].
  - destruct (generate_tree_renders (height (Dir es)) path es prefix is_last)
      as (s & Hs & _); [lia|].
    exists (Return s). intros fuel Hle.
    eapply generate_tree_fuel_mono; [|done]. lia.
  - eexists. intros [|fuel] Hle; [lia | reflexivity].
Qed.

Lemma renders_first_line (path : Path) (nd : node) (prefix : string)
    (is_last : bool) (s : string) :
  renders path nd prefix is_last s ->
  exists rest,
    s = prefix +:+ connector is_last +:+ display path +:+ nl +:+ rest.
Proof. destruct 1. rewrite <- display_label. by eexists. Qed.

Lemma root_first_line (path : Path) (es : list (string * node)) :
  exists rest,
    generate_tree_root path (Some (Dir es))
      = Return (connector true +:+ display path +:+ nl +:+ rest).
Proof.
  destruct (generate_tree_root_dir path es) as (s & Hs & Hr).
  apply renders_first_line in Hr as [rest ->]. by exists rest.
Qed.

Lemma str_nonempty (p : Path) : str p <> "".
Proof.
  unfold str. destruct (String.eqb_spec (root p +:+ PyStr.join "/" (tail p)) "");
    [discriminate | done].
Qed.

End RootFacts.

(** ** The rendered tree *)

Module TreeClaims.
Import PurePath DirectoryStructureScanner TreeSpec TreeFacts RootFacts.

(** C2, as stated, fails: for the empty directory [repo] the first line of
    the rendering is not the bare name [repo]; the rendering is the one line
    [└── repo]. *)
Lemma root_line_not_bare :
  generate_tree_root (of_string "repo") (Some (Dir []))
    = Return ("└── repo" +:+ nl)
  /\ ~ exists rest,
       generate_tree_root (of_string "repo") (Some (Dir []))
         = Return (display (of_string "repo") +:+ nl +:+ rest).
Proof.
  split; [reflexivity|].
  intros [rest H]. vm_compute in H. discriminate H.
Qed.

(** C2, amended: for every directory root, the first line of the rendering
    is the terminal connector [└── ] followed by the display name of the
    root. *)
Theorem root_line_has_terminal_connector (path : Path)
    (es : list (string * node)) :
  exists rest,
    generate_tree_root path (Some (Dir es))
      = Return ("└── " +:+ display path +:+ nl +:+ rest).
Proof.
  apply root_first_line.
Qed.

Example generate_tree_sample :
  generate_tree_root (of_string "repo") (Some Sample.repo)
    = Return "└── repo
    ├── a
    │   ├── x.py
    │   └── y.md
    └── b.txt
".
Proof. reflexivity. Qed.

(** C4: the rendering of every directory follows the level rule at every
    level it visits: the entries named with a leading dot and the
    directories named [__pycache__] are dropped, the remaining
    subdirectories come in lexicographic order, each fully expanded, before
    the remaining files in lexicographic order, and the last entry of the
    level has the connector [└── ], all earlier ones [├── ]. *)
Theorem generate_tree_follows_level_rule (path : Path)
    (es : list (string * node)) :
  exists s,
    generate_tree_root path (Some (Dir es)) = Return s
    /\ renders path (Dir es) "" true s.
Proof. apply generate_tree_root_dir. Qed.

(** C10: when the name of the root path is empty, as for [/], the first
    line shows the string form of the path after the connector, and that
    string form is never empty. *)
Theorem empty_name_falls_back_to_str (path : Path)
    (es : list (string * node)) :
  name path = "" ->
  str path <> ""
  /\ exists rest,
       generate_tree_root path (Some (Dir es))
         = Return ("└── " +:+ str path +:+ nl +:+ rest).
Proof.
  intros Hname. split; [apply str_nonempty|].
  destruct (root_first_line path es) as [rest Hrest].
  exists rest. rewrite Hrest. unfold display. by rewrite Hname.
Qed.

Lemma empty_name_falls_back_to_str_witness :
  name (of_string "/") = ""
  /\ str (of_string "/") = "/"
  /\ exists rest,
       generate_tree_root (of_string "/") (Some Sample.repo)
         = Return ("└── /" +:+ nl +:+ rest).
Proof.
  split; [reflexivity|]. split; [reflexivity|].
  apply (empty_name_falls_back_to_str (of_string "/")). reflexivity.
Defined.

End TreeClaims.

(** ** Acquisition and release of the working directory *)

Module PipelineFacts.
Import PurePath MarkdownGenerator.

Lemma path_exists_false (w : World) (p : Path) :
  path_exists w p = false <-> disk w !! key p = None.
Proof.
  unfold path_exists. rewrite bool_decide_eq_false, <- eq_None_not_Some. done.
Qed.

Lemma rmtree_existing (p : Path) (w : World) :
  path_exists w p = true ->
  rmtree p w = (set_disk (delete (key p) (disk w)) w, Return tt).
Proof. unfold rmtree. by intros ->. Qed.

Lemma release_local (self : t) (w : World) :
  is_github self = false -> release self w = (w, Return tt).
Proof. unfold release. by intros ->. Qed.

Lemma release_returns (self : t) (w : World) :
  (release self w).2 = Return tt.
Proof.
  unfold release. destruct (is_github self); [|done].
  destruct (temp_dir self) as [d|]; [|done].
  destruct (path_exists w d) eqn:Hd; [|done].
  by rewrite rmtree_existing.
Qed.

Lemma release_gone (self : t) (w : World) (d : Path) :
  temp_dir self = Some d -> is_github self = true ->
  path_exists (release self w).1 d = false.
Proof.
  unfold release. intros -> ->.
  destruct (path_exists w d) eqn:Hd; [|done].
  rewrite rmtree_existing by done. simpl.
  apply path_exists_false. simpl. apply lookup_delete_eq.
Qed.

Lemma release_absent (self : t) (w : World) :
  (forall d, temp_dir self = Some d -> path_exists w d = false) ->
  release self w = (w, Return tt).
Proof.
  unfold release. intros H. destruct (is_github self); [|done].
  destruct (temp_dir self) as [d|]; [|done].
  by rewrite (H d eq_refl).
Qed.

(** After a remote acquisition that created a directory, the generator
    remembers it, whatever the clone did. *)
Lemma acquire_remembers (env : Env) (self : t) (w : World) (d : string) :
  is_github self = true -> mkdtemp env = Return d ->
  temp_dir (acquire env self w).1.1 = Some (of_string d)
  /\ is_github (acquire env self w).1.1 = true.
Proof.
  intros Hgh Hd. unfold acquire. rewrite Hgh, Hd.
  by destruct (clone_from env _) as [es|e [es|]].
Qed.

Lemma acquire_local (env : Env) (self : t) (w : World) :
  is_github self = false ->
  acquire env self w =
    (self, w,
     if path_exists w (of_string (target_path self))
     then Return (of_string (target_path self))
     else Raise (ValueError ("Directory not found: "
                               +:+ str (of_string (target_path self))))).
Proof.
  intros Hgh. unfold acquire. rewrite Hgh.
  by destruct (path_exists w _).
Qed.

Lemma generate_markdowns_unfold (env : Env) (self : t) (w : World) :
  generate_markdowns env self w =
    let a := acquire env self w in
    let r := release a.1.1 a.1.2 in
    (a.1.1, r.1,
     r.2 ≫= fun _ => a.2 ≫= scan_and_build env a.1.1 a.1.2).
Proof.
  unfold generate_markdowns.
  destruct (acquire env self w) as [[self1 w1] acquired]. simpl.
  by destruct (release self1 w1).
Qed.

End PipelineFacts.

Module PipelineClaims.
Import PurePath MarkdownGenerator PipelineFacts.

(** C1: on a remote target, once [mkdtemp] has created the temporary
    directory, that directory no longer exists when [generate_markdowns]
    hands control back, whether it returns the documents or raises, and
    whatever the clone did. *)
Theorem temp_dir_deleted (env : Env) (target : string)
    (exts : option (gset string)) (w : World) (d : string) :
  is_github (init env target exts) = true ->
  mkdtemp env = Return d ->
  path_exists (generate_markdowns env (init env target exts) w).1.2
              (of_string d) = false.
Proof.
  intros Hgh Hd. rewrite generate_markdowns_unfold. simpl.
  destruct (acquire_remembers env (init env target exts) w d Hgh Hd)
    as [Htmp Hgh'].
  by apply release_gone.
Qed.

Lemma temp_dir_deleted_witness :
  let self := init Sample.env_clone_fails Sample.url None in
  is_github self = true
  /\ mkdtemp Sample.env_clone_fails = Return "/tmp/tmpab12"
  /\ path_exists (acquire Sample.env_clone_fails self Sample.world).1.2
                  (of_string "/tmp/tmpab12") = true
  /\ path_exists
       (generate_markdowns Sample.env_clone_fails self Sample.world).1.2
       (of_string "/tmp/tmpab12") = false.
Proof.
  split; [reflexivity|]. split; [reflexivity|]. split; [reflexivity|].
  apply (temp_dir_deleted Sample.env_clone_fails Sample.url None
           Sample.world "/tmp/tmpab12"); reflexivity.
Defined.

(** C6: on a local target the run leaves the world as it found it: nothing
    is deleted, on any exit path. *)
Theorem local_run_deletes_nothing (env : Env) (self : t) (w : World) :
  is_github self = false ->
  (generate_markdowns env self w).1.2 = w.
Proof.
  intros Hgh. rewrite generate_markdowns_unfold, acquire_local by done.
  simpl. by rewrite release_local.
Qed.

Lemma local_run_deletes_nothing_witness :
  is_github (init Sample.env_clone_ok "repo" None) = false
  /\ (generate_markdowns Sample.env_clone_ok
        (init Sample.env_clone_ok "repo" None) Sample.world).1.2
     = Sample.world.
Proof.
  split; [reflexivity|].
  apply (local_run_deletes_nothing Sample.env_clone_ok
           (init Sample.env_clone_ok "repo" None) Sample.world).
  reflexivity.
Defined.

(** C7: the release step never raises, and a second release on the world
    the first one left is a no-op that does not raise either; this holds
    for every generator state, in particular for the one an acquisition
    that failed partway leaves behind. *)
Theorem release_idempotent (self : t) (w : World) :
  (release self w).2 = Return tt
  /\ release self (release self w).1 = ((release self w).1, Return tt)
  /\ forall env,
       let a := acquire env self w in
       let w1 := (release a.1.1 a.1.2).1 in
       (release a.1.1 a.1.2).2 = Return tt
       /\ release a.1.1 w1 = (w1, Return tt).
Proof.
  assert (Hidem : forall self w,
             release self (release self w).1 = ((release self w).1, Return tt)).
  { clear. intros self w. destruct (is_github self) eqn:Hgh.
    - apply release_absent. intros d Hd. by apply release_gone.
    - by rewrite !release_local. }
  split; [apply release_returns|]. split; [apply Hidem|].
  intros env a w1. split; [apply release_returns | apply Hidem].
Qed.

End PipelineClaims.

(** ** Local targets *)

Module LocalClaims.
Import PurePath MarkdownGenerator PipelineFacts RootFacts.

(** C3, as stated, fails: acquisition does not check that a local path is a
    directory.  For the regular file [notes.txt] the acquisition step
    returns the path as working directory; the run fails only later, in the
    tree renderer, and not with the acquisition error. *)
Lemma acquire_accepts_regular_file :
  let self := init Sample.env_clone_ok "notes.txt" None in
  is_github self = false
  /\ disk Sample.world !! "notes.txt" = Some (File "hello")
  /\ acquire Sample.env_clone_ok self Sample.world
       = (self, Sample.world, Return (of_string "notes.txt"))
  /\ generate_markdowns Sample.env_clone_ok self Sample.world
       = (self, Sample.world,
          Raise (NotADirectoryError "[Errno 20] Not a directory: 'notes.txt'")).
Proof. by vm_compute. Qed.

(** C3, amended: on a local target the acquisition step checks only that
    the path exists.  When it does not, the run raises the acquisition
    error [ValueError("Directory not found: ...")] and returns no
    documents; when it exists, acquisition returns it as working directory,
    directory or not; for what is not a directory the run then raises
    [NotADirectoryError] from the renderer and returns no documents
    either.  In all these cases the world is left as it was. *)
Theorem local_acquisition (env : Env) (self : t) (w : World) :
  is_github self = false ->
  let work_dir := of_string (target_path self) in
  (path_exists w work_dir = false ->
     generate_markdowns env self w
       = (self, w, Raise (ValueError ("Directory not found: " +:+ str work_dir))))
  /\ (path_exists w work_dir = true ->
        acquire env self w = (self, w, Return work_dir))
  /\ (forall nd,
        disk w !! key work_dir = Some nd -> is_dir nd = false ->
        generate_markdowns env self w
          = (self, w,
             Raise (NotADirectoryError
                      ("[Errno 20] Not a directory: '" +:+ str work_dir +:+ "'")))).
Proof.
  intros Hgh work_dir. repeat split.
  - intros Hex. rewrite generate_markdowns_unfold, acquire_local by done.
    fold work_dir. rewrite Hex. simpl. by rewrite release_local.
  - intros Hex. rewrite acquire_local by done. fold work_dir. by rewrite Hex.
  - intros nd Hnd Hdir.
    rewrite generate_markdowns_unfold, acquire_local by done.
    fold work_dir.
    assert (path_exists w work_dir = true) as ->.
    { unfold path_exists. apply bool_decide_eq_true. by rewrite Hnd. }
    simpl. rewrite release_local by done. simpl.
    unfold scan_and_build. rewrite Hnd.
    by rewrite generate_tree_root_not_dir.
Qed.

Lemma local_acquisition_witness :
  generate_markdowns Sample.env_clone_ok
      (init Sample.env_clone_ok "missing" None) Sample.world
    = (init Sample.env_clone_ok "missing" None, Sample.world,
       Raise (ValueError "Directory not found: missing")).
Proof.
  apply (local_acquisition Sample.env_clone_ok
           (init Sample.env_clone_ok "missing" None) Sample.world eq_refl).
  reflexivity.
Defined.

End LocalClaims.

(** ** The content document *)

Module ContentClaims.
Import MarkdownGenerator ContentSpec.

Lemma add_file_subsection (acc : string) (f : FileInfo.t) :
  add_file acc f = acc +:+ subsection f.
Proof.
  unfold add_file, subsection.
  destruct (FileInfo.content f); simpl; by rewrite !PyStrFacts.app_assoc.
Qed.

Lemma fold_add_file (files : list FileInfo.t) (acc : string) :
  fold_left add_file files acc = acc +:+ document files.
Proof.
  revert acc. induction files as [|f files IH]; intros acc; simpl.
  - by rewrite PyStrFacts.app_nil_r.
  - by rewrite IH, add_file_subsection, PyStrFacts.app_assoc.
Qed.

Lemma document_app (l1 l2 : list FileInfo.t) :
  document (l1 ++ l2) = document l1 +:+ document l2.
Proof.
  induction l1 as [|f l1 IH]; simpl; [done|].
  by rewrite IH, PyStrFacts.app_assoc.
Qed.

(** C5: the content document is the subsections of the entries, one after
    the other in input order, each consisting of the heading with the path,
    the separator line, the content or the absence marker, and the
    blank-line spacer; it depends on the list alone, and the subsection of
    every entry stands in it between the documents of the entries before
    and after it. *)
Theorem content_document_subsections :
  (forall files, _create_content_markdown files = document files)
  /\ (forall l1 f l2,
        _create_content_markdown (l1 ++ f :: l2)
          = _create_content_markdown l1 +:+ subsection f
              +:+ _create_content_markdown l2).
Proof.
  assert (H : forall files, _create_content_markdown files = document files).
  { intros files. unfold _create_content_markdown.
    by rewrite fold_add_file. }
  split; [done|]. intros l1 f l2.
  by rewrite !H, document_app.
Qed.

End ContentClaims.

(** ** The command line *)

Module MainClaims.
Import MarkdownGenerator.

Lemma last_print (line : string) (w : World) :
  last (stdout (print line w)) = Some line.
Proof. simpl. apply last_snoc. Qed.

(** C8: [main] hands 0 or 1 to [exit].  With anything but one positional
    argument it prints the line
    [Usage: python main.py <github_url or directory_path>] and returns 1.
    With one argument it returns 1 and the last line it prints is
    [エラーが発生しました: ] followed by the text of the exception, when
    the pipeline raises (an acquisition failure, such as a local path that
    does not exist, or any other exception) or when one of the two files
    cannot be written; it returns 0 when the pipeline returns the documents
    and both files are written. *)
Theorem main_exit_code (env : Env) (argv : list string) (w : World) :
  let out := main env argv w in
  let target := nth 1 argv "" in
  let run :=
    generate_markdowns env (init env target None)
      (print ("Processing: " +:+ target) w) in
  (out.2 = 0 \/ out.2 = 1)%Z
  /\ (length argv <> 2%nat ->
        out.2 = 1%Z
        /\ stdout out.1
           = stdout w
               ++ ["Usage: python main.py <github_url or directory_path>"])
  /\ (length argv = 2%nat -> forall e,
        run.2 = Raise e ->
        out.2 = 1%Z
        /\ last (stdout out.1)
           = Some ("エラーが発生しました: " +:+ MessageSpec.text e))
  /\ (length argv = 2%nat ->
        is_github (init env target None) = false ->
        path_exists w (PurePath.of_string target) = false ->
        out.2 = 1%Z
        /\ last (stdout out.1)
           = Some ("エラーが発生しました: Directory not found: "
                     +:+ PurePath.str (PurePath.of_string target)))
  /\ (length argv = 2%nat -> forall content_md structure_md files,
        run.2 = Return (content_md, structure_md, files) ->
        let name := _get_name run.1.1 in
        let content_file :=
          name +:+ "_content_" +:+ now_compact env +:+ ".md" in
        let structure_file :=
          name +:+ "_structure_" +:+ now_compact env +:+ ".md" in
        match open_error env content_file, open_error env structure_file with
        | Some e, _ | None, Some e =>
            out.2 = 1%Z
            /\ last (stdout out.1)
               = Some ("エラーが発生しました: " +:+ MessageSpec.text e)
        | None, None => out.2 = 0%Z
        end).
Proof.
  intros out target run. subst out.
  assert (Hmissing :
            is_github (init env target None) = false ->
            path_exists w (PurePath.of_string target) = false ->
            run.2 = Raise (ValueError
                             ("Directory not found: "
                                +:+ PurePath.str (PurePath.of_string target)))).
  { intros Hgh Hex. subst run.
    rewrite PipelineFacts.generate_markdowns_unfold,
      PipelineFacts.acquire_local by done.
    change (path_exists (print ("Processing: " +:+ target) w)
              (PurePath.of_string (target_path (init env target None))))
      with (path_exists w (PurePath.of_string target)).
    rewrite Hex. simpl. by rewrite PipelineFacts.release_local. }
  assert (Hline : forall e, error_line e
                    = "エラーが発生しました: " +:+ MessageSpec.text e).
  { by intros []. }
  unfold main.
  destruct (Nat.eqb_spec (length argv) 2) as [Hlen|Hlen]; simpl.
  - fold target. fold run. clearbody run.
    destruct run as [[g w1] r]. simpl in *. unfold write_file.
    split; [|split; [done|split; [|split]]].
    + destruct r as [[[content_md structure_md] files]|e]; [|by right].
      destruct (open_error env _); simpl; [by right|].
      destruct (open_error env _); simpl; [by right | by left].
    + intros _ e ->. split; [done|]. rewrite Hline; apply last_print.
    + intros _ Hgh Hex. rewrite (Hmissing Hgh Hex).
      split; [done|]. rewrite Hline; apply last_print.
    + intros _ content_md structure_md files ->. simpl.
      destruct (open_error env _); simpl;
        [split; [done | rewrite Hline; apply last_print]|].
      destruct (open_error env _); simpl;
        [split; [done | rewrite Hline; apply last_print]|].
      done.
  - split; [by right|]. by split.
Qed.

Lemma main_exit_code_witness :
  (main Sample.env_clone_fails ["main.py"; Sample.url] Sample.world).2 = 1%Z
  /\ last (stdout (main Sample.env_clone_fails ["main.py"; Sample.url]
                          Sample.world).1)
     = Some "エラーが発生しました: Cmd('git') failed".
Proof.
  apply (proj1 (proj2 (proj2 (main_exit_code Sample.env_clone_fails
                                ["main.py"; Sample.url] Sample.world)))
           eq_refl (OtherError "GitCommandError" "Cmd('git') failed")).
  reflexivity.
Defined.

End MainClaims.

(** ** The title of a remote target *)

Module NameFacts.
Import PyStr NameSpec.

Lemma rev_app_app (s acc t : string) :
  String.rev_app s acc +:+ t = String.rev_app s (acc +:+ t).
Proof. revert acc. induction s as [|a s IH]; intros acc; simpl; [done|]. apply IH. Qed.

Lemma split_go_no_sep (sep : ascii) (seg cur : string) :
  ~ In sep (list_ascii_of_string seg) ->
  split_go sep cur seg = [String.rev cur +:+ seg].
Proof.
  revert cur. induction seg as [|c seg IH]; intros cur Hsep; simpl.
  - by rewrite PyStrFacts.app_nil_r.
  - simpl in Hsep. destruct (Ascii.eqb_spec c sep) as [->|Hc]; [tauto|].
    rewrite IH by tauto. unfold String.rev. simpl.
    by rewrite !rev_app_app.
Qed.

Lemma split_go_nonempty (sep : ascii) (s cur : string) :
  split_go sep cur s <> [].
Proof.
  revert cur. induction s as [|c s IH]; intros cur; simpl; [done|].
  destruct (Ascii.eqb c sep); [done | apply IH].
Qed.

Lemma split_go_last (sep : ascii) (pre seg cur d : string) :
  List.last (split_go sep cur (pre +:+ String sep seg)) d
    = List.last (split_go sep "" seg) d.
Proof.
  revert cur. induction pre as [|c pre IH]; intros cur.
  - change ("" +:+ String sep seg) with (String sep seg). simpl.
    rewrite Ascii.eqb_refl.
    pose proof (split_go_nonempty sep seg "") as Hne.
    by destruct (split_go sep "" seg).
  - rewrite PyStrFacts.app_cons. simpl.
    destruct (Ascii.eqb c sep); [|apply IH].
    pose proof (split_go_nonempty sep (pre +:+ String sep seg) "") as Hne.
    specialize (IH ""). by destruct (split_go sep "" (pre +:+ String sep seg)).
Qed.

Lemma last_split (url seg : string) :
  last_segment url seg -> List.last (split "/" url) "" = seg.
Proof.
  intros [Hslash [->|[pre ->]]]; unfold split.
  - by rewrite split_go_no_sep.
  - change ("/" +:+ seg) with (String "/" seg).
    by rewrite split_go_last, split_go_no_sep.
Qed.

Lemma replace_go_skip (old new a b : string) :
  replace_go old new (String.length a) (a +:+ b) = replace_go old new 0 b.
Proof.
  induction a as [|c a IH]; [done|].
  rewrite PyStrFacts.app_cons. simpl. apply IH.
Qed.

Lemma replace_go_0 (old new : string) (c : ascii) (s : string) :
  replace_go old new 0 (String c s) =
    if startswith old (String c s)
    then new +:+ replace_go old new (String.length old - 1) s
    else String c (replace_go old new 0 s).
Proof. reflexivity. Qed.

Lemma replace_at_occurrence (b : string) :
  replace ".git" "" (".git" +:+ b) = replace ".git" "" b.
Proof.
  unfold replace.
  change (".git" +:+ b) with (String "." ("git" +:+ b)).
  rewrite replace_go_0.
  change (String "." ("git" +:+ b)) with (".git" +:+ b).
  rewrite PyStrFacts.startswith_app.
  apply (replace_go_skip ".git" "" "git" b).
Qed.

Lemma contains_unfold (sub : string) (c : ascii) (s : string) :
  contains sub (String c s) = startswith sub (String c s) || contains sub s.
Proof. reflexivity. Qed.

Lemma contains_cons (sub : string) (c : ascii) (s : string) :
  contains sub (String c s) = false ->
  startswith sub (String c s) = false /\ contains sub s = false.
Proof. rewrite contains_unfold. by intros [? ?]%orb_false_elim. Qed.

Lemma replace_no_occurrence (s : string) :
  contains ".git" s = false -> replace ".git" "" s = s.
Proof.
  unfold replace. induction s as [|c s IH]; [done|].
  intros [Hhd Htl]%contains_cons.
  rewrite replace_go_0, Hhd. by rewrite IH.
Qed.

Lemma startswith_extend (pre s t : string) :
  startswith pre s = true -> startswith pre (s +:+ t) = true.
Proof.
  intros [rest ->]%PyStrFacts.startswith_inv.
  rewrite PyStrFacts.app_assoc. apply PyStrFacts.startswith_app.
Qed.

(** ".git" does not overlap itself: an occurrence cannot start inside a
    text that has none and run into the ".git" that follows it. *)
Lemma no_straddling_occurrence (c : ascii) (a b : string) :
  contains ".git" (String c a) = false ->
  startswith ".git" (String c a +:+ ".git" +:+ b) = false.
Proof.
  intros H.
  rewrite PyStrFacts.app_cons, PyStrFacts.startswith_cons.
  destruct (Ascii.eqb_spec "." c) as [<-|]; [|done].
  destruct a as [|c2 a]; [done|].
  rewrite PyStrFacts.app_cons, PyStrFacts.startswith_cons.
  destruct (Ascii.eqb_spec "g" c2) as [<-|]; [|done].
  destruct a as [|c3 a]; [done|].
  rewrite PyStrFacts.app_cons, PyStrFacts.startswith_cons.
  destruct (Ascii.eqb_spec "i" c3) as [<-|]; [|done].
  destruct a as [|c4 a]; [done|].
  rewrite PyStrFacts.app_cons, PyStrFacts.startswith_cons.
  destruct (Ascii.eqb_spec "t" c4) as [<-|]; [|done].
  apply contains_cons in H as [H _].
  change (String "." (String "g" (String "i" (String "t" a))))
    with (".git" +:+ a) in H.
  by rewrite PyStrFacts.startswith_app in H.
Qed.

Lemma replace_first_occurrence (a b : string) :
  contains ".git" a = false ->
  replace ".git" "" (a +:+ ".git" +:+ b) = a +:+ replace ".git" "" b.
Proof.
  induction a as [|c a IH]; intros Ha.
  - apply replace_at_occurrence.
  - pose proof (no_straddling_occurrence c a b Ha) as Hno.
    apply contains_cons in Ha as [_ Ha].
    rewrite !PyStrFacts.app_cons in *. unfold replace in *.
    rewrite replace_go_0, Hno. by rewrite IH.
Qed.

(** A text with an occurrence splits at the first one. *)
Lemma first_occurrence (s : string) :
  contains ".git" s = true ->
  exists a b, s = a +:+ ".git" +:+ b /\ contains ".git" a = false.
Proof.
  induction s as [|c s IH]; [done|].
  rewrite contains_unfold.
  destruct (startswith ".git" (String c s)) eqn:Hhd.
  - intros _. apply PyStrFacts.startswith_inv in Hhd as [b ->].
    by exists "", b.
  - rewrite orb_false_l. intros (a & b & -> & Ha)%IH.
    exists (String c a), b. split; [done|].
    rewrite contains_unfold, Ha, orb_false_r.
    destruct (startswith ".git" (String c a)) eqn:Hca; [|done].
    apply (startswith_extend _ _ (".git" +:+ b)) in Hca.
    rewrite PyStrFacts.app_cons in Hca. congruence.
Qed.

Lemma replace_without_git (s : string) :
  without_git s (replace ".git" "" s).
Proof.
  remember (String.length s) as n eqn:Hn. revert s Hn.
  induction n as [n IH] using lt_wf_ind. intros s ->.
  destruct (contains ".git" s) eqn:Hs.
  - apply first_occurrence in Hs as (a & b & -> & Ha).
    rewrite replace_first_occurrence by done.
    constructor; [done|].
    apply (IH (String.length b)); [|done].
    rewrite !PyStrFacts.length_app. simpl. lia.
  - rewrite replace_no_occurrence by done. by constructor.
Qed.

Lemma without_git_unique (s r : string) :
  without_git s r -> r = replace ".git" "" s.
Proof.
  induction 1 as [s Hs|a b r Ha Hb IH].
  - by rewrite replace_no_occurrence.
  - by rewrite replace_first_occurrence, IH.
Qed.

End NameFacts.

Module NameClaims.
Import PyStr NameSpec NameFacts MarkdownGenerator.

(** C9: for a remote target the title is the text after the last '/' of
    the URL with every occurrence of ".git" cut out, wherever in that text
    it stands, not only at its end; and that description fixes the title. *)
Theorem remote_name_cuts_every_git (env : Env) (url : string)
    (exts : option (gset string)) (seg : string) :
  is_github (init env url exts) = true ->
  last_segment url seg ->
  without_git seg (_get_name (init env url exts))
  /\ forall r, without_git seg r -> r = _get_name (init env url exts).
Proof.
  intros Hgh Hseg. unfold _get_name. rewrite Hgh.
  cbn [target_path init]. rewrite (last_split url seg Hseg).
  split; [apply replace_without_git | apply without_git_unique].
Qed.

Lemma remote_name_cuts_every_git_witness :
  _get_name (init Sample.env_clone_ok Sample.url None) = "userhub.io"
  /\ without_git "user.github.io.git" "userhub.io".
Proof.
  split; [reflexivity|].
  refine (proj1 (remote_name_cuts_every_git Sample.env_clone_ok Sample.url
                   None "user.github.io.git" eq_refl _)).
  split.
  - unfold has_slash. simpl. intuition discriminate.
  - right. by exists "https://github.com/user".
Defined.

End NameClaims.

(** ** Sorting related lists *)

Module SortFacts.

Section related.
Context {A : Type} (R : relation A) `{!RelDecision R} (S : A -> A -> Prop).
Hypothesis HS : forall x x' y y', S x x' -> S y y' -> (R x y <-> R x' y').

Lemma list_merge_related (l1 l1' l2 l2' : list A) :
  Forall2 S l1 l1' -> Forall2 S l2 l2' ->
  Forall2 S (list_merge R l1 l2) (list_merge R l1' l2').
Proof.
  intros H1. revert l2 l2'.
  induction H1 as [|x x' l1 l1' Hx H1 IH1]; intros l2 l2' H2.
  { by rewrite !list_merge_nil_l. }
  induction H2 as [|y y' l2 l2' Hy H2 IH2].
  { rewrite !list_merge_nil_r. by constructor. }
  rewrite !list_merge_cons.
  pose proof (HS x x' y y' Hx Hy) as Hiff.
  destruct (decide (R x y)), (decide (R x' y')); try tauto.
  - constructor; [done|]. apply IH1. by constructor.
  - constructor; [done|]. apply IH2.
Qed.

Lemma merge_list_to_stack_related (st st' : list (option (list A)))
    (l l' : list A) :
  Forall2 (option_Forall2 (Forall2 S)) st st' -> Forall2 S l l' ->
  Forall2 (option_Forall2 (Forall2 S))
    (merge_list_to_stack R st l) (merge_list_to_stack R st' l').
Proof.
  intros Hst. revert l l'.
  induction Hst as [|o o' st st' Ho Hst IH]; intros l l' Hl; simpl.
  { by repeat constructor. }
  destruct Ho as [k k' Hk|]; simpl.
  - constructor; [constructor|]. apply IH. by apply list_merge_related.
  - by repeat constructor.
Qed.

Lemma merge_stack_related (st st' : list (option (list A))) :
  Forall2 (option_Forall2 (Forall2 S)) st st' ->
  Forall2 S (merge_stack R st) (merge_stack R st').
Proof.
  induction 1 as [|o o' st st' Ho Hst IH]; simpl; [constructor|].
  destruct Ho as [k k' Hk|]; [|done]. by apply list_merge_related.
Qed.

Lemma merge_sort_aux_related (st st' : list (option (list A))) (l l' : list A) :
  Forall2 (option_Forall2 (Forall2 S)) st st' -> Forall2 S l l' ->
  Forall2 S (merge_sort_aux R st l) (merge_sort_aux R st' l').
Proof.
  intros Hst Hl. revert st st' Hst.
  induction Hl as [|x x' l l' Hx Hl IH]; intros st st' Hst; simpl.
  - by apply merge_stack_related.
  - apply IH. apply merge_list_to_stack_related; [done|]. by repeat constructor.
Qed.

(** Sorting two lists that agree, position by position, on everything the
    order looks at gives lists that agree in the same way. *)
Lemma merge_sort_related (l l' : list A) :
  Forall2 S l l' -> Forall2 S (merge_sort R l) (merge_sort R l').
Proof. intros Hl. apply merge_sort_aux_related; [constructor | done]. Qed.

End related.

Lemma NoDup_fst_inj {A B : Type} (l : list (A * B)) (a b : A * B) :
  NoDup l.*1 -> a ∈ l -> b ∈ l -> a.1 = b.1 -> a = b.
Proof.
  induction l as [|x l IH]; intros Hnd Ha Hb Hab; [by apply elem_of_nil in Ha|].
  rewrite fmap_cons in Hnd. apply NoDup_cons in Hnd as [Hx Hnd].
  apply elem_of_cons in Ha as [->|Ha], Hb as [->|Hb]; [done| | |by apply IH].
  - destruct Hx. rewrite Hab. by apply list_elem_of_fmap_2.
  - destruct Hx. rewrite <- Hab. by apply list_elem_of_fmap_2.
Qed.

Lemma Forall2_strengthen {A B : Type} (P P' : A -> B -> Prop)
    (Q : A -> Prop) (Q' : B -> Prop) (l : list A) (k : list B) :
  (forall a b, P a b -> Q a -> Q' b -> P' a b) ->
  Forall2 P l k -> Forall Q l -> Forall Q' k -> Forall2 P' l k.
Proof.
  intros HP. induction 1 as [|a b l k Hab Hlk IH]; intros Hl Hk; [constructor|].
  apply Forall_cons in Hl as [Ha Hl]. apply Forall_cons in Hk as [Hb Hk].
  constructor; auto.
Qed.

End SortFacts.

(** ** The rendering depends on the listed names and kinds only *)

Module ViewFacts.
Import PurePath DirectoryStructureScanner TreeSpec PathFacts TreeFacts.
Import RootFacts SortFacts TreeView Aux.

Lemma dirs_loop_alike
    (rec : Path -> node -> string -> bool -> option (outcome string))
    (np : string) (len : Z) (not_files : bool) (l1 l2 : list entry) :
  Forall2 (alike rec) l1 l2 ->
  forall i out,
    dirs_loop rec np len not_files (enumerate_from i l1) out
      = dirs_loop rec np len not_files (enumerate_from i l2) out.
Proof.
  induction 1 as [|a b l1 l2 (_ & _ & _ & Hrec) Hl IH]; intros i out; [done|].
  simpl. rewrite Hrec.
  destruct (rec b.1 b.2 np _) as [[s|e]|]; [apply IH|done|done].
Qed.

Lemma files_loop_alike
    (rec : Path -> node -> string -> bool -> option (outcome string))
    (np : string) (len : Z) (l1 l2 : list entry) :
  Forall2 (alike rec) l1 l2 ->
  forall i out,
    files_loop np len (enumerate_from i l1) out
      = files_loop np len (enumerate_from i l2) out.
Proof.
  induction 1 as [|a b l1 l2 (Hab & _) Hl IH]; intros i out; [done|].
  simpl. rewrite Hab. apply IH.
Qed.

Lemma kept_alike
    (rec : Path -> node -> string -> bool -> option (outcome string))
    (P Q : entry -> Prop) `{!forall x, Decision (P x)}
    `{!forall x, Decision (Q x)} (l1 l2 : list entry) :
  (forall a b, alike rec a b -> P a <-> P b) ->
  (forall a b, alike rec a b -> Q a <-> Q b) ->
  Forall2 (alike rec) l1 l2 ->
  Forall2 (alike rec) (filter Q (sorted (filter P l1)))
                      (filter Q (sorted (filter P l2))).
Proof.
  intros HP HQ Hl.
  apply Forall2_filter; [done|].
  apply merge_sort_related.
  - intros x x' y y' (Hx & _) (Hy & _). unfold entry_le. by rewrite Hx, Hy.
  - by apply Forall2_filter.
Qed.

(** Directories whose entries are alike, position by position, render the
    same. *)
Lemma generate_tree_alike (fuel : nat) (path : Path)
    (es1 es2 : list (string * node)) (prefix : string) (is_last : bool) :
  Forall2 (fun a b => alike (generate_tree fuel) (as_entry path a)
                            (as_entry path b)) es1 es2 ->
  generate_tree (S fuel) path (Dir es1) prefix is_last
    = generate_tree (S fuel) path (Dir es2) prefix is_last.
Proof.
  intros Hes. rewrite !generate_tree_dir. cbv zeta.
  set (entries1 := (fun e => (child path e.1, e.2)) <$> es1).
  set (entries2 := (fun e => (child path e.1, e.2)) <$> es2).
  assert (Hentries : Forall2 (alike (generate_tree fuel)) entries1 entries2).
  { by apply Forall2_fmap. }
  set (ds1 := filter keep_dir (sorted (filter (fun d => is_dir d.2) entries1))).
  set (fs1 := filter keep_file (sorted (filter (fun f => is_file f.2) entries1))).
  set (ds2 := filter keep_dir (sorted (filter (fun d => is_dir d.2) entries2))).
  set (fs2 := filter keep_file (sorted (filter (fun f => is_file f.2) entries2))).
  assert (Hd : Forall2 (alike (generate_tree fuel)) ds1 ds2).
  { apply kept_alike; [| |done].
    - intros a b (_ & -> & _). done.
    - intros a b (Hab & _). unfold keep_dir. by rewrite Hab. }
  assert (Hf : Forall2 (alike (generate_tree fuel)) fs1 fs2).
  { apply kept_alike; [| |done].
    - intros a b (_ & _ & -> & _). done.
    - intros a b (Hab & _). unfold keep_file. by rewrite Hab. }
  rewrite (Forall2_length _ _ _ Hd), (Forall2_length _ _ _ Hf).
  rewrite (dirs_loop_alike _ _ _ _ _ _ Hd).
  assert (is_empty fs1 = is_empty fs2) as -> by (by destruct Hf).
  destruct (dirs_loop _ _ _ _ _ _) as [[out|e]|]; [|done|done].
  by rewrite (files_loop_alike (generate_tree fuel) _ _ _ _ Hf).
Qed.

Lemma filter_fmap_iff {A B : Type} (f : A -> B) (P : B -> Prop) (Q : A -> Prop)
    `{!forall x, Decision (P x)} `{!forall x, Decision (Q x)} (l : list A) :
  (forall x, P (f x) <-> Q x) -> filter P (f <$> l) = f <$> filter Q l.
Proof.
  intros HPQ. induction l as [|x l IH]; [done|].
  rewrite fmap_cons, !filter_cons, IH.
  destruct (decide (P (f x))) as [HP|HP], (decide (Q x)) as [HQ|HQ];
    try done; [by apply HPQ in HP | by apply HPQ in HQ].
Qed.

Lemma shown_dir_as_entry (path : Path) (e : string * node) :
  shown_dir (as_entry path e) <-> is_dir e.2 /\ shown e.
Proof.
  unfold shown_dir, dropped, shown, as_entry. simpl. rewrite name_child.
  destruct e as [nm [c|es|]]; simpl;
    destruct (PyStr.startswith "." nm), (String.eqb nm "__pycache__");
    simpl; tauto.
Qed.

Lemma shown_file_as_entry (path : Path) (e : string * node) :
  shown_file (as_entry path e) <-> is_file e.2 /\ shown e.
Proof.
  unfold shown_file, dropped, shown, as_entry. simpl. rewrite name_child.
  destruct e as [nm [c|es|]]; simpl;
    destruct (PyStr.startswith "." nm), (String.eqb nm "__pycache__");
    simpl; tauto.
Qed.

Lemma shown_dirs_visible (path : Path) (es : list (string * node)) :
  filter shown_dir (@fmap list _ (string * node) entry
                      (fun e => (child path e.1, e.2)) es)
    = @fmap list _ (string * node) entry (fun e => (child path e.1, e.2))
        (filter (fun e => is_dir e.2) (visible es)).
Proof.
  unfold visible. rewrite list_filter_filter.
  apply (filter_fmap_iff (as_entry path)), shown_dir_as_entry.
Qed.

Lemma shown_files_visible (path : Path) (es : list (string * node)) :
  filter shown_file (@fmap list _ (string * node) entry
                      (fun e => (child path e.1, e.2)) es)
    = @fmap list _ (string * node) entry (fun e => (child path e.1, e.2))
        (filter (fun e => is_file e.2) (visible es)).
Proof.
  unfold visible. rewrite list_filter_filter.
  apply (filter_fmap_iff (as_entry path)), shown_file_as_entry.
Qed.

(** Sorted lists of entries of one directory with the same members are the
    same list, when the names are pairwise different. *)
Lemma sorted_siblings_unique (path : Path) (vs : list (string * node))
    (l1 l2 : list entry) :
  NoDup vs.*1 ->
  (forall x, x ∈ l1 -> x ∈ as_entry path <$> vs) ->
  Sorted name_le l1 -> Sorted name_le l2 -> l1 ≡ₚ l2 -> l1 = l2.
Proof.
  intros Hnd Hin Hs1 Hs2 Hperm.
  apply (Sorted_unique_strong name_le); [|done..].
  intros x1 x2 Hx1 Hx2 H12 H21.
  rewrite <- Hperm in Hx2.
  apply Hin, list_elem_of_fmap in Hx1 as (e1 & -> & He1).
  apply Hin, list_elem_of_fmap in Hx2 as (e2 & -> & He2).
  unfold name_le, as_entry in H12, H21. simpl in H12, H21.
  rewrite !name_child in H12, H21.
  f_equal. apply (NoDup_fst_inj vs); [done..|].
  by apply (anti_symm String.le).
Qed.

(** A directory renders as any directory with the same listed entries,
    in whatever order and among whatever unlisted entries they stand. *)
Lemma generate_tree_visible (fuel : nat) (path : Path)
    (es1 es2 : list (string * node)) (prefix : string) (is_last : bool) :
  visible es1 ≡ₚ visible es2 -> NoDup (visible es1).*1 ->
  generate_tree (S fuel) path (Dir es1) prefix is_last
    = generate_tree (S fuel) path (Dir es2) prefix is_last.
Proof.
  intros Hperm Hnd. rewrite !generate_tree_dir. cbv zeta.
  assert (Hds :
      filter keep_dir (sorted (filter (fun d => is_dir d.2)
                                 ((fun e => (child path e.1, e.2)) <$> es1)))
      = filter keep_dir (sorted (filter (fun d => is_dir d.2)
                                   ((fun e => (child path e.1, e.2)) <$> es2)))).
  { apply (sorted_siblings_unique path (visible es1));
      [done| |apply kept_sorted|apply kept_sorted|].
    - intros x Hx. rewrite (dirs_permutation path es1) in Hx.
      apply list_elem_of_filter in Hx as [Hx Hin].
      apply list_elem_of_fmap in Hin as (e & -> & He).
      apply (list_elem_of_fmap_2 (as_entry path)), list_elem_of_filter.
      split; [|done]. by apply (shown_dir_as_entry path e) in Hx as [_ ?].
    - rewrite (dirs_permutation path es1), (dirs_permutation path es2).
      pose proof (shown_dirs_visible path es1) as H1.
      pose proof (shown_dirs_visible path es2) as H2.
      match type of H1 with ?a = _ =>
        match type of H2 with ?b = _ => change (a ≡ₚ b) end end.
      by rewrite H1, H2, Hperm. }
  assert (Hfs :
      filter keep_file (sorted (filter (fun f => is_file f.2)
                                  ((fun e => (child path e.1, e.2)) <$> es1)))
      = filter keep_file (sorted (filter (fun f => is_file f.2)
                                    ((fun e => (child path e.1, e.2)) <$> es2)))).
  { apply (sorted_siblings_unique path (visible es1));
      [done| |apply kept_sorted|apply kept_sorted|].
    - intros x Hx. rewrite (files_permutation path es1) in Hx.
      apply list_elem_of_filter in Hx as [Hx Hin].
      apply list_elem_of_fmap in Hin as (e & -> & He).
      apply (list_elem_of_fmap_2 (as_entry path)), list_elem_of_filter.
      split; [|done]. by apply (shown_file_as_entry path e) in Hx as [_ ?].
    - rewrite (files_permutation path es1), (files_permutation path es2).
      pose proof (shown_files_visible path es1) as H1.
      pose proof (shown_files_visible path es2) as H2.
      match type of H1 with ?a = _ =>
        match type of H2 with ?b = _ => change (a ≡ₚ b) end end.
      by rewrite H1, H2, Hperm. }
  by rewrite Hds, Hfs.
Qed.

Lemma visible_idemp (es : list (string * node)) :
  visible (visible es) = visible es.
Proof. unfold visible. by apply list_filter_filter_l. Qed.

Lemma visible_fixed (vs es : list (string * node)) :
  visible es ≡ₚ vs -> visible vs = vs.
Proof.
  intros Hperm. unfold visible.
  assert (Hall : Forall shown vs).
  { rewrite <- Hperm. apply Forall_forall.
    by intros x [? _]%list_elem_of_filter. }
  clear Hperm. induction Hall as [|x vs Hx _ IH]; [done|].
  rewrite filter_cons_True by done. by rewrite IH.
Qed.

Lemma same_view_kind (a b : node) :
  same_view a b -> is_dir a = is_dir b /\ is_file a = is_file b.
Proof. by destruct 1. Qed.

(** Trees with the same view render the same, with any fuel. *)
Lemma generate_tree_same_view (fuel : nat) :
  forall (path : Path) (nd nd' : node) (prefix : string) (is_last : bool),
    tidy nd -> tidy nd' -> same_view nd nd' ->
    generate_tree fuel path nd prefix is_last
      = generate_tree fuel path nd' prefix is_last.
Proof.
  induction fuel as [|fuel IH]; intros path nd nd' prefix is_last Ht Ht' Hv;
    [done|].
  destruct Hv as [c c'| |es es' vs Hperm Hall]; [done|done|].
  inversion Ht as [| |? Hnd Hkids]; subst.
  inversion Ht' as [| |? Hnd' Hkids']; subst.
  pose proof (visible_fixed vs es Hperm) as Hvs.
  transitivity (generate_tree (S fuel) path (Dir vs) prefix is_last).
  { apply generate_tree_visible; [rewrite Hvs; exact Hperm | exact Hnd]. }
  transitivity (generate_tree (S fuel) path (Dir (visible es')) prefix is_last).
  { apply generate_tree_alike.
    eapply Forall2_strengthen; [|exact Hall| |exact Hkids'].
    - intros a b [Hab Hsame] Ha Hb.
      destruct (same_view_kind _ _ Hsame) as [Hd Hf].
      unfold alike, as_entry. simpl. rewrite Hab. repeat split; [done..|].
      intros pre l. apply IH; [exact Ha | exact Hb | exact Hsame].
    - by rewrite <- Hperm. }
  symmetry. apply generate_tree_visible; [by rewrite visible_idemp | exact Hnd'].
Qed.

End ViewFacts.

Module ViewTheorems.
Import PurePath DirectoryStructureScanner RootFacts TreeView ViewFacts.

Ltac compute_visible :=
  match goal with
  | |- context [visible ?es] =>
      let v := eval vm_compute in (visible es) in
      change (visible es) with v
  end.

Ltac show_tidy :=
  lazymatch goal with
  | |- tidy (File _) => apply tidy_file
  | |- tidy Other => apply tidy_other
  | |- tidy (Dir ?es) =>
      apply tidy_dir; compute_visible;
      [ refine (bool_decide_unpack _ _); vm_compute; exact I
      | repeat (constructor; [simpl; show_tidy|]); constructor ]
  end.

(** X1: the rendering of a tree depends only on the names and kinds of the
    entries it lists, level by level: not on the order in which the
    directories list their entries, not on the entries that are dropped, and
    not on what the files hold.  The listed names of each directory are
    pairwise different. *)
Theorem rendering_depends_on_view_only (path : Path) (nd nd' : node) :
  tidy nd -> tidy nd' -> same_view nd nd' ->
  generate_tree_root path (Some nd) = generate_tree_root path (Some nd').
Proof.
  intros Ht Ht' Hv. unfold generate_tree_root.
  destruct (generate_tree_root_fuel path nd "" true) as [r Hr].
  destruct (generate_tree_root_fuel path nd' "" true) as [r' Hr'].
  rewrite (Hr (S (height nd))), (Hr' (S (height nd'))) by lia.
  pose proof (generate_tree_same_view (S (height nd `max` height nd')) path
                nd nd' "" true Ht Ht' Hv) as Heq.
  rewrite Hr, Hr' in Heq by lia. by injection Heq.
Qed.

Lemma rendering_depends_on_view_only_witness :
  tidy Sample.repo /\ tidy Sample2.repo_relisted
  /\ same_view Sample.repo Sample2.repo_relisted
  /\ generate_tree_root (of_string "repo") (Some Sample.repo)
     = generate_tree_root (of_string "repo") (Some Sample2.repo_relisted).
Proof.
  assert (Ht : tidy Sample.repo) by (unfold Sample.repo; show_tidy).
  assert (Ht' : tidy Sample2.repo_relisted)
    by (unfold Sample2.repo_relisted; show_tidy).
  assert (Hv : same_view Sample.repo Sample2.repo_relisted).
  { unfold Sample.repo, Sample2.repo_relisted.
    apply same_view_dir
      with (vs := [("a", Dir [("y.md", File "# y"); ("x.py", File "x = 1")]);
                   ("b.txt", File "text")]).
    { vm_compute. apply perm_swap. }
    compute_visible.
    constructor; [split; [reflexivity|]|].
    - apply same_view_dir
        with (vs := [("x.py", File "x = 1"); ("y.md", File "# y")]).
      { vm_compute. apply perm_swap. }
      compute_visible.
      repeat (constructor; [split; [reflexivity | apply same_view_file]|]).
      constructor.
    - constructor; [split; [reflexivity | apply same_view_file]|].
      constructor. }
  split; [done|]. split; [done|]. split; [done|].
  apply (rendering_depends_on_view_only (of_string "repo") Sample.repo
           Sample2.repo_relisted Ht Ht' Hv).
Defined.

(** X2: a directory in which nothing is listed (it is empty, or holds only
    dot entries and [__pycache__] directories) renders as the one line of
    its own name. *)
Theorem nothing_listed_renders_one_line (path : Path)
    (es : list (string * node)) :
  visible es = [] ->
  generate_tree_root path (Some (Dir es))
    = Return ("└── " +:+ display path +:+ nl).
Proof.
  intros Hvis. unfold generate_tree_root.
  destruct (generate_tree_root_fuel path (Dir es) "" true) as [r Hr].
  rewrite (Hr (S (height (Dir es)))) by lia.
  specialize (Hr (S (height (Dir es))) (le_n _)).
  rewrite (generate_tree_visible _ path es [] "" true) in Hr.
  - by injection Hr as <-.
  - by rewrite Hvis.
  - rewrite Hvis. constructor.
Qed.

Lemma nothing_listed_renders_one_line_witness :
  visible [(".git", Dir [("HEAD", File "ref")]);
           ("__pycache__", Dir [("x.pyc", File "")]);
           (".env", File "KEY=1")] = []
  /\ generate_tree_root (of_string "/srv/app") (Some Sample2.only_hidden)
     = Return ("└── app" +:+ nl).
Proof.
  split; [reflexivity|].
  apply (nothing_listed_renders_one_line (of_string "/srv/app")). reflexivity.
Defined.

End ViewTheorems.

(** ** More on the pipeline *)

Module PipelineTheorems.
Import PurePath DirectoryStructureScanner TreeSpec RootFacts.
Import MarkdownGenerator PipelineFacts.

(** X3: what [generate_markdowns] returns or raises is what its [try] block
    returned or raised: the [finally] block never replaces it.  So a failing
    [mkdtemp], a failing clone and a failing scanner surface as their own
    exceptions. *)
Theorem finally_keeps_the_outcome (env : Env) (self : t) (w : World) :
  let a := acquire env self w in
  (generate_markdowns env self w).2
    = a.2 ≫= scan_and_build env a.1.1 a.1.2.
Proof.
  intros a. rewrite generate_markdowns_unfold. fold a. simpl.
  by rewrite release_returns.
Qed.

Lemma fresh_generator_leaves_no_trace (env : Env) (self : t) (w : World) :
  is_github self = true -> temp_dir self = None ->
  (forall d, mkdtemp env = Return d -> path_exists w (of_string d) = false) ->
  (generate_markdowns env self w).1.2 = w.
Proof.
  intros Hgh Hnone Hfresh. rewrite generate_markdowns_unfold. simpl.
  unfold acquire. rewrite Hgh.
  destruct (mkdtemp env) as [d|e] eqn:Hd; simpl.
  - specialize (Hfresh d eq_refl). apply path_exists_false in Hfresh.
    set (k := key (of_string d)) in *.
    assert (Hgone : forall nd,
              delete k (<[k:=nd]> (<[k:=Dir []]> (disk w))) = disk w).
    { intros nd. rewrite delete_insert_eq, delete_insert_eq.
      by apply delete_id. }
    destruct (clone_from env _) as [es|e [es|]]; simpl;
      unfold release; simpl; rewrite Hgh;
      unfold path_exists, rmtree, path_exists; simpl; fold k.
    + rewrite lookup_insert_eq. simpl. rewrite Hgone.
      unfold set_disk. simpl. by destruct w.
    + rewrite lookup_insert_eq. simpl. rewrite Hgone.
      unfold set_disk. simpl. by destruct w.
    + rewrite lookup_delete_eq. simpl.
      rewrite delete_insert_eq, delete_id by done.
      unfold set_disk. simpl. by destruct w.
  - unfold release. by rewrite Hgh, Hnone.
Qed.

(** X4: a run on a remote target leaves the world as it found it, when the
    directory [mkdtemp] makes was not there before: whether the run returns
    or raises, nothing of the clone stays behind and nothing else is
    touched. *)
Theorem remote_run_leaves_no_trace (env : Env) (target : string)
    (exts : option (gset string)) (w : World) :
  is_github (init env target exts) = true ->
  (forall d, mkdtemp env = Return d -> path_exists w (of_string d) = false) ->
  (generate_markdowns env (init env target exts) w).1.2 = w.
Proof. intros Hgh Hfresh. by apply fresh_generator_leaves_no_trace. Qed.

Lemma remote_run_leaves_no_trace_witness :
  is_github (init Sample.env_clone_fails Sample.url None) = true
  /\ path_exists Sample.world (of_string "/tmp/tmpab12") = false
  /\ (generate_markdowns Sample.env_clone_fails
        (init Sample.env_clone_fails Sample.url None) Sample.world).1.2
     = Sample.world.
Proof.
  split; [reflexivity|]. split; [reflexivity|].
  apply (remote_run_leaves_no_trace Sample.env_clone_fails Sample.url None
           Sample.world); [reflexivity|].
  intros d [= <-]. reflexivity.
Defined.

(** X5: on a local target that is a directory, the run hands back the list
    of the scanner unchanged, with the content document built from that
    list and the structure document built from the rendered tree; when the
    scanner raises, the run raises the same exception.  The world stays as
    it was. *)
Theorem local_run_result (env : Env) (self : t) (w : World)
    (es : list (string * node)) :
  is_github self = false ->
  disk w !! key (of_string (target_path self)) = Some (Dir es) ->
  exists tree,
    renders (of_string (target_path self)) (Dir es) "" true tree
    /\ generate_markdowns env self w
       = (self, w,
          files ← scan_files env (disk w) (of_string (target_path self))
                    (target_extensions self);
          mret (_create_content_markdown files,
                _create_structure_markdown env self tree, files)).
Proof.
  intros Hgh Hdir.
  destruct (generate_tree_root_dir (of_string (target_path self)) es)
    as (tree & Htree & Hrenders).
  exists tree. split; [done|].
  rewrite generate_markdowns_unfold, acquire_local by done.
  assert (path_exists w (of_string (target_path self)) = true) as ->.
  { unfold path_exists. apply bool_decide_eq_true. by rewrite Hdir. }
  simpl. rewrite release_local by done. simpl.
  unfold scan_and_build. by rewrite Hdir, Htree.
Qed.

Lemma local_run_result_witness :
  exists tree,
    renders (of_string "repo") Sample.repo "" true tree
    /\ generate_markdowns Sample.env_clone_ok
         (init Sample.env_clone_ok "repo" None) Sample.world
       = (init Sample.env_clone_ok "repo" None, Sample.world,
          Return (_create_content_markdown Sample.files,
                  _create_structure_markdown Sample.env_clone_ok
                    (init Sample.env_clone_ok "repo" None) tree,
                  Sample.files)).
Proof.
  apply (local_run_result Sample.env_clone_ok
           (init Sample.env_clone_ok "repo" None) Sample.world);
    reflexivity.
Defined.



End PipelineTheorems.

(** ** More on titles and targets *)

Module NameTheorems.
Import PyStr PurePath NameSpec NameFacts MarkdownGenerator.

(** [sub in s] holds exactly when [s] has [sub] somewhere inside. *)
Lemma contains_iff (sub s : string) :
  contains sub s = true <-> exists a b, s = a +:+ sub +:+ b.
Proof.
  split.
  - induction s as [|c s IH].
    + change (contains sub "") with (startswith sub "" || false).
      rewrite orb_false_r.
      intros [b Hb]%PyStrFacts.startswith_inv. by exists "", b.
    + rewrite contains_unfold.
      intros [[b ->]%PyStrFacts.startswith_inv | (a & b & ->)%IH]%orb_true_iff.
      * by exists "", b.
      * by exists (String c a), b.
  - intros (a & b & ->). induction a as [|c a IH].
    + change ("" +:+ sub +:+ b) with (sub +:+ b).
      destruct (sub +:+ b) eqn:Heq.
      * change (contains sub "") with (startswith sub "" || false).
        by rewrite <- Heq, PyStrFacts.startswith_app.
      * by rewrite contains_unfold, <- Heq, PyStrFacts.startswith_app.
    + rewrite PyStrFacts.app_cons, contains_unfold, IH. apply orb_true_r.
Qed.

(** X7: a target is taken for a remote repository exactly when it starts
    with [http://] or [https://] and has [github.com] somewhere in it,
    wherever that stands. *)
Theorem is_github_iff (env : Env) (target : string)
    (exts : option (gset string)) :
  is_github (init env target exts) = true
  <-> ((exists rest, target = "http://" +:+ rest)
       \/ (exists rest, target = "https://" +:+ rest))
      /\ exists a b, target = a +:+ "github.com" +:+ b.
Proof.
  cbn [is_github init].
  rewrite andb_true_iff, orb_true_iff, contains_iff.
  split.
  - intros [[H|H] Hc]; (split; [|done]);
      apply PyStrFacts.startswith_inv in H; auto.
  - intros [[[rest ->]|[rest ->]] Hc]; (split; [|done]).
    + left. apply PyStrFacts.startswith_app.
    + right. apply PyStrFacts.startswith_app.
Qed.

Lemma chars_rev_app (c : ascii) (s acc : string) :
  In c (list_ascii_of_string (String.rev_app s acc))
  <-> In c (list_ascii_of_string s) \/ In c (list_ascii_of_string acc).
Proof.
  revert acc. induction s as [|a s IH]; intros acc; simpl; [tauto|].
  rewrite IH. simpl. tauto.
Qed.

Lemma split_go_fields (sep : ascii) (s cur x : string) :
  ~ In sep (list_ascii_of_string cur) ->
  In x (split_go sep cur s) -> ~ In sep (list_ascii_of_string x).
Proof.
  revert cur. induction s as [|c s IH]; intros cur Hcur; simpl.
  - intros [<-|[]]. unfold String.rev. rewrite chars_rev_app. simpl. tauto.
  - destruct (Ascii.eqb_spec c sep) as [->|Hc]; simpl.
    + intros [<-|Hx].
      * unfold String.rev. rewrite chars_rev_app. simpl. tauto.
      * apply (IH ""); [simpl; tauto | done].
    + apply IH. simpl. intros [?|?]; [congruence | tauto].
Qed.

Lemma last_Forall {A : Type} (P : A -> Prop) (l : list A) (d : A) :
  P d -> (forall x, In x l -> P x) -> P (List.last l d).
Proof.
  intros Hd. induction l as [|x l IH]; intros Hl; [done|].
  destruct l as [|y l]; [apply Hl; by left|].
  apply IH. intros z Hz. apply Hl. by right.
Qed.

Lemma replace_go_chars (old : string) (c : ascii) (s : string) :
  forall k,
    In c (list_ascii_of_string (replace_go old "" k s)) ->
    In c (list_ascii_of_string s).
Proof.
  induction s as [|a s IH]; intros k; [done|].
  destruct k as [|k].
  - rewrite replace_go_0. destruct (startswith old (String a s)).
    + intros H. right. by apply (IH _ H).
    + simpl. intros [?|H]; [by left | right; by apply (IH _ H)].
  - simpl. intros H. right. by apply (IH _ H).
Qed.

Lemma get_name_no_slash (self : t) : ~ has_slash (_get_name self).
Proof.
  unfold _get_name, has_slash. destruct (is_github self).
  - intros H. apply replace_go_chars in H. revert H.
    apply (last_Forall (fun x => ~ In "/"%char (list_ascii_of_string x)));
      [simpl; tauto|].
    intros x Hx.
    apply (split_go_fields "/" (target_path self) "" x); [simpl; tauto|done].
  - unfold name, of_string.
    destruct (splitroot (target_path self)) as [rt rel]. simpl.
    apply (last_Forall (fun x => ~ In "/"%char (list_ascii_of_string x)));
      [simpl; tauto|].
    intros x Hx. apply list_elem_of_In, list_elem_of_filter in Hx as [_ Hx].
    apply list_elem_of_In in Hx.
    apply (split_go_fields "/" rel "" x); [simpl; tauto|done].
Qed.

(** X8: the title never has a '/' in it, for a remote and for a local
    target alike. *)
Theorem title_has_no_slash (env : Env) (target : string)
    (exts : option (gset string)) :
  ~ has_slash (_get_name (init env target exts)).
Proof. apply get_name_no_slash. Qed.

(** X9: a remote target that ends in '/' has the empty title. *)
Theorem trailing_slash_gives_empty_title (env : Env) (pre : string)
    (exts : option (gset string)) :
  is_github (init env (pre +:+ "/") exts) = true ->
  _get_name (init env (pre +:+ "/") exts) = "".
Proof.
  intros Hgh. unfold _get_name. rewrite Hgh. cbn [target_path init].
  rewrite (last_split (pre +:+ "/") ""); [done|].
  split; [unfold has_slash; simpl; tauto|]. right. by exists pre.
Qed.

Lemma trailing_slash_gives_empty_title_witness :
  is_github (init Sample.env_clone_ok ("https://github.com/user/repo" +:+ "/")
               None) = true
  /\ _get_name (init Sample.env_clone_ok
                  ("https://github.com/user/repo" +:+ "/") None) = "".
Proof.
  split; [reflexivity|].
  apply (trailing_slash_gives_empty_title Sample.env_clone_ok
           "https://github.com/user/repo" None).
  reflexivity.
Defined.

End NameTheorems.

(** ** The interactive page *)

Module AppFacts.
Import MarkdownGenerator ContentSpec App Aux.

Lemma append_file_chunk (acc : list string) (f : FileInfo.t) :
  append_file acc f = acc ++ chunk f.
Proof.
  unfold append_file, chunk.
  destruct (FileInfo.content f); simpl; by rewrite <- !app_assoc.
Qed.

Lemma fold_append_file (files : list FileInfo.t) (acc : list string) :
  fold_left append_file files acc = acc ++ mjoin (chunk <$> files).
Proof.
  revert acc. induction files as [|f files IH]; intros acc; simpl.
  - by rewrite app_nil_r.
  - by rewrite IH, append_file_chunk, <- app_assoc.
Qed.

Lemma join_cons (sep x y : string) (l : list string) :
  PyStr.join sep (x :: y :: l) = x +:+ sep +:+ PyStr.join sep (y :: l).
Proof. reflexivity. Qed.

Lemma join_chunks (files : list FileInfo.t) :
  PyStr.join nl (mjoin (chunk <$> files)) = PyStr.join nl (subsection <$> files).
Proof.
  induction files as [|f files IH]; [done|].
  destruct files as [|g files].
  - unfold subsection. simpl. by rewrite !PyStrFacts.app_assoc.
  - rewrite !fmap_cons in *. rewrite join_cons, <- IH.
    unfold subsection.
    change (mjoin (chunk f :: chunk g :: (chunk <$> files)))
      with (("## " +:+ FileInfo.path f) :: "------------"
              :: default absence_marker (FileInfo.content f) :: nl
              :: mjoin (chunk g :: (chunk <$> files))).
    change (mjoin (chunk g :: (chunk <$> files)))
      with (("## " +:+ FileInfo.path g)
              :: (List.tail (chunk g) ++ mjoin (chunk <$> files))).
    rewrite !join_cons. by rewrite !PyStrFacts.app_assoc.
Qed.

Lemma create_markdown_join (files : list FileInfo.t) :
  create_markdown files = PyStr.join nl (subsection <$> files).
Proof.
  unfold create_markdown. rewrite fold_append_file. apply join_chunks.
Qed.

Lemma subsection_starts (f : FileInfo.t) :
  exists rest, subsection f = String "#" rest.
Proof. unfold subsection. by eexists. Qed.

Lemma create_markdown_empty (files : list FileInfo.t) :
  String.eqb (create_markdown files) ""
    = DirectoryStructureScanner.is_empty files.
Proof.
  rewrite create_markdown_join. destruct files as [|f files]; [done|].
  destruct (subsection_starts f) as [rest Hf].
  destruct files as [|g files].
  - change (PyStr.join nl (subsection <$> [f])) with (subsection f).
    by rewrite Hf.
  - rewrite !fmap_cons, join_cons, Hf. done.
Qed.

Lemma structure_markdown_starts (env : Env) (self : t) (tree : string) :
  exists rest, _create_structure_markdown env self tree = String "#" rest.
Proof.
  unfold _create_structure_markdown. cbv zeta.
  rewrite !PyStrFacts.app_assoc. by eexists.
Qed.

(** What a run that returns has returned. *)
Lemma generate_markdowns_returns (env : Env) (self : t) (w : World)
    (content structure : string) (files : list FileInfo.t) :
  (generate_markdowns env self w).2 = Return (content, structure, files) ->
  content = _create_content_markdown files
  /\ exists self' tree,
       structure = _create_structure_markdown env self' tree.
Proof.
  rewrite PipelineFacts.generate_markdowns_unfold. simpl.
  rewrite PipelineFacts.release_returns. simpl.
  destruct (acquire env self w) as [[self1 w1] [work_dir|e]]; simpl; [|done].
  unfold scan_and_build.
  destruct (DirectoryStructureScanner.generate_tree_root _ _) as [tree|e];
    simpl; [|done].
  destruct (scan_files env _ _ _) as [fs|e]; simpl; [|done].
  intros [= <- <- <-]. split; [done|]. by exists self1, tree.
Qed.

Lemma elem_of_ticked (exts : gmap string bool) (x : string) :
  x ∈ ticked exts <-> exts !! x = Some true.
Proof.
  unfold ticked. rewrite elem_of_dom. split.
  - intros [b [Hx Hb]%map_lookup_filter_Some]. simpl in Hb. by subst.
  - intros Hx. exists true. by apply map_lookup_filter_Some.
Qed.

End AppFacts.

Module AppTheorems.
Import MarkdownGenerator ContentSpec App AppFacts.

(** X10: the document of [StreamlitFileWriter.create_markdown] is the
    subsections of the entries, in order, joined by a newline: the same
    subsections as in the content document of the pipeline, with one more
    newline between each two of them.  So the two documents have the same
    text for at most one entry and differ in length by the number of
    entries less one otherwise. *)
Theorem create_markdown_joins_subsections (files : list FileInfo.t) :
  create_markdown files = PyStr.join nl (subsection <$> files)
  /\ String.length (create_markdown files)
     = (String.length (_create_content_markdown files)
        + (length files - 1))%nat.
Proof.
  split; [apply create_markdown_join|].
  rewrite create_markdown_join.
  unfold _create_content_markdown. rewrite ContentClaims.fold_add_file.
  change ("" +:+ document files) with (document files).
  induction files as [|f files IH]; [done|].
  destruct files as [|g files].
  - simpl. rewrite PyStrFacts.app_nil_r. lia.
  - rewrite !fmap_cons, join_cons. rewrite fmap_cons in IH.
    change (document (f :: g :: files))
      with (subsection f +:+ document (g :: files)).
    rewrite !PyStrFacts.length_app, IH. simpl. lia.
Qed.

(** X11: when the pipeline raises, a click on the scan button changes
    nothing: the session stays as it was, the documents of an earlier scan
    included, the disk stays as it was, and the page shows one error message
    with the text of the exception.  The target is local, or the temporary
    directory of the clone was new. *)
Theorem failed_scan_changes_nothing {R : Type} (env : Env)
    (format_code_content : list FileInfo.t -> outcome R)
    (selected_prog selected_config selected_doc : gmap string bool)
    (repo_url : string) (ss : SessionState R) (w : World) (e : exn) :
  let self :=
    init env repo_url
      (Some (selected_extensions env selected_prog selected_config
               selected_doc)) in
  (generate_markdowns env self w).2 = Raise e ->
  is_github self = false
  \/ (forall d, mkdtemp env = Return d ->
                path_exists w (PurePath.of_string d) = false) ->
  on_scan env format_code_content selected_prog selected_config selected_doc
          repo_url ss w
    = (ss, w, [error ("エラーが発生しました: " +:+ MessageSpec.text e)]).
Proof.
  intros self Hrun Hclean.
  assert (Hline : error_line e
                  = "エラーが発生しました: " +:+ MessageSpec.text e)
    by (by destruct e).
  assert (Hw : (generate_markdowns env self w).1.2 = w).
  { destruct (is_github self) eqn:Hgh.
    - destruct Hclean as [?|Hfresh]; [done|].
      by apply PipelineTheorems.fresh_generator_leaves_no_trace.
    - rewrite PipelineFacts.generate_markdowns_unfold,
        PipelineFacts.acquire_local by done.
      simpl. by rewrite PipelineFacts.release_local. }
  unfold on_scan. fold self.
  destruct (generate_markdowns env self w) as [[g w1] r].
  simpl in Hrun, Hw. subst. by rewrite Hline.
Qed.

Lemma failed_scan_changes_nothing_witness :
  on_scan (R := string) Sample.env_clone_fails (fun _ => Return "") ∅ ∅ ∅
          Sample.url (mkSession None (Some "old tree") (Some "old text"))
          Sample.world
    = (mkSession None (Some "old tree") (Some "old text"), Sample.world,
       [error "エラーが発生しました: Cmd('git') failed"]).
Proof.
  apply (failed_scan_changes_nothing Sample.env_clone_fails
           (fun _ => Return "") ∅ ∅ ∅ Sample.url
           (mkSession None (Some "old tree") (Some "old text")) Sample.world
           (OtherError "GitCommandError" "Cmd('git') failed"));
    [reflexivity|].
  right. intros d [= <-]. reflexivity.
Defined.

(** X12: after a click on which the pipeline returns, the result section is
    drawn exactly when the scan found at least one file: with no file the
    stored content document is the empty string, which is falsy, and the
    section, the directory tree included, stays hidden. *)
Theorem results_shown_iff_files {R : Type} (env : Env)
    (format_code_content : list FileInfo.t -> outcome R)
    (selected_prog selected_config selected_doc : gmap string bool)
    (repo_url : string) (ss : SessionState R) (w : World)
    (content structure : string) (files : list FileInfo.t) :
  (generate_markdowns env
     (init env repo_url
        (Some (selected_extensions env selected_prog selected_config
                 selected_doc))) w).2
    = Return (content, structure, files) ->
  results_shown
    (on_scan env format_code_content selected_prog selected_config
             selected_doc repo_url ss w).1.1
    = negb (DirectoryStructureScanner.is_empty files).
Proof.
  intros Hrun.
  destruct (generate_markdowns_returns _ _ _ _ _ _ Hrun)
    as (_ & self' & tree & ->).
  destruct (structure_markdown_starts env self' tree) as [rest Hs].
  unfold on_scan.
  destruct (generate_markdowns env _ w) as [[g w1] r]. simpl in Hrun. subst r.
  assert (Hshown : forall rc : option R,
            results_shown
              (mkSession rc (Some (_create_structure_markdown env self' tree))
                         (Some (create_markdown files)))
            = negb (DirectoryStructureScanner.is_empty files)).
  { intros rc. unfold results_shown. cbn [structure_md content_md truthy].
    by rewrite create_markdown_empty, Hs. }
  destruct (format_code_content files); cbn [fst]; apply Hshown.
Qed.

Lemma results_shown_iff_files_witness :
  results_shown
    (on_scan (R := string)
       (mkEnv (Return "/tmp/tmpab12") (fun _ => Cloned [])
              (fun _ _ _ => Return []) "" ∅ "" "" (fun _ => None))
       (fun _ => Return "") ∅ ∅ ∅ "repo" (mkSession None None None)
       Sample.world).1.1
    = false.
Proof.
  apply (results_shown_iff_files
           (mkEnv (Return "/tmp/tmpab12") (fun _ => Cloned [])
                  (fun _ _ _ => Return []) "" ∅ "" "" (fun _ => None))
           (fun _ => Return "") ∅ ∅ ∅ "repo" (mkSession None None None)
           Sample.world
           "" (_create_structure_markdown
                 (mkEnv (Return "/tmp/tmpab12") (fun _ => Cloned [])
                        (fun _ _ _ => Return []) "" ∅ "" "" (fun _ => None))
                 (init (mkEnv (Return "/tmp/tmpab12") (fun _ => Cloned [])
                        (fun _ _ _ => Return []) "" ∅ "" "" (fun _ => None))
                       "repo" None)
                 ("└── repo" +:+ nl +:+ "    ├── a" +:+ nl
                    +:+ "    │   ├── x.py" +:+ nl
                    +:+ "    │   └── y.md" +:+ nl
                    +:+ "    └── b.txt" +:+ nl)) []).
  reflexivity.
Defined.

(** X13: the extension set the page hands to the generator, and the
    generator to the scanner, is the set of the ticked extensions of the
    three groups when at least one is ticked, and the default set when none
    is. *)
Theorem scanned_extensions (env : Env)
    (selected_prog selected_config selected_doc : gmap string bool)
    (repo_url : string) :
  let exts :=
    target_extensions
      (init env repo_url
         (Some (selected_extensions env selected_prog selected_config
                  selected_doc))) in
  let is_ticked x :=
    selected_prog !! x = Some true \/ selected_config !! x = Some true
    \/ selected_doc !! x = Some true in
  ((exists x, is_ticked x) -> forall x, x ∈ exts <-> is_ticked x)
  /\ ((forall x, ~ is_ticked x) -> exts = DEFAULT_EXTENSIONS env).
Proof.
  intros exts is_ticked. subst exts. cbn [target_extensions init].
  unfold selected_extensions.
  set (U := ticked selected_prog ∪ ticked selected_config ∪ ticked selected_doc).
  assert (HU : forall x, x ∈ U <-> is_ticked x).
  { intros x. unfold U, is_ticked.
    rewrite !elem_of_union, !elem_of_ticked. tauto. }
  split.
  - intros [x Hx]. apply HU in Hx.
    destruct (decide (U = ∅)) as [HU0|HU0].
    { rewrite HU0 in Hx. by apply elem_of_empty in Hx. }
    destruct (decide (U = ∅)); [done|]. exact HU.
  - intros Hnone.
    assert (U = ∅) as ->.
    { apply set_eq. intros x. rewrite HU. split.
      - intros H. by apply Hnone in H.
      - intros H. by apply elem_of_empty in H. }
    destruct (decide (∅ = ∅)); [|done].
    by destruct (decide (DEFAULT_EXTENSIONS env = ∅)).
Qed.

Lemma scanned_extensions_witness :
  ".py" ∈ target_extensions
            (init Sample.env_clone_ok "repo"
               (Some (selected_extensions Sample.env_clone_ok
                        (<[".py" := true]> (<[".js" := false]> ∅)) ∅ ∅)))
  /\ ".js" ∉ target_extensions
               (init Sample.env_clone_ok "repo"
                  (Some (selected_extensions Sample.env_clone_ok
                           (<[".py" := true]> (<[".js" := false]> ∅)) ∅ ∅))).
Proof.
  pose proof (proj1 (scanned_extensions Sample.env_clone_ok
                       (<[".py" := true]> (<[".js" := false]> ∅)) ∅ ∅ "repo"))
    as H.
  cbv zeta in H.
  assert (Hex : exists x : string,
             (<[".py" := true]> (<[".js" := false]> ∅) : gmap string bool) !! x
               = Some true
             \/ (∅ : gmap string bool) !! x = Some true
             \/ (∅ : gmap string bool) !! x = Some true).
  { exists ".py". left. reflexivity. }
  specialize (H Hex). split.
  - apply H. left. reflexivity.
  - intros Hin. apply H in Hin as [Hin|[Hin|Hin]]; discriminate Hin.
Defined.

End AppTheorems.

(** ** What [main] leaves on the disk *)

Module MainFacts.
Import PyStr PurePath NameSpec NameFacts MarkdownGenerator PipelineFacts Aux.

Lemma chars_app (a b : string) :
  list_ascii_of_string (a +:+ b)
    = list_ascii_of_string a ++ list_ascii_of_string b.
Proof.
  induction a as [|c a IH]; [done|].
  rewrite PyStrFacts.app_cons. simpl. by rewrite IH.
Qed.

Lemma has_slash_app (a b : string) :
  has_slash (a +:+ b) <-> has_slash a \/ has_slash b.
Proof. unfold has_slash. rewrite chars_app. apply in_app_iff. Qed.

Lemma splitroot_plain (c : ascii) (s : string) :
  c <> "/"%char -> splitroot (String c s) = ("", String c s).
Proof.
  intros Hc.
  destruct c as [[] [] [] [] [] [] [] []]; try reflexivity. by destruct Hc.
Qed.

(** A name without '/' that is neither empty nor "." is its own path. *)
Lemma key_plain (s : string) :
  ~ has_slash s -> (2 <= String.length s)%nat -> key (of_string s) = s.
Proof.
  intros Hs Hlen. unfold key, of_string.
  destruct s as [|c s]; [simpl in Hlen; lia|].
  rewrite splitroot_plain by (intros ->; apply Hs; by left).
  unfold split. rewrite split_go_no_sep by exact Hs.
  change (String.rev "" +:+ String c s) with (String c s).
  assert (String.eqb (String c s) "." = false) as Hdot.
  { apply String.eqb_neq. intros [= -> ->]. simpl in Hlen. lia. }
  rewrite filter_cons_True by (by rewrite Hdot).
  reflexivity.
Qed.

Lemma output_name_key (self : t) (kind stamp : string) :
  ~ has_slash kind -> ~ has_slash stamp ->
  (2 <= String.length kind)%nat ->
  key (of_string (output_name (_get_name self) kind stamp))
    = output_name (_get_name self) kind stamp.
Proof.
  intros Hkind Hstamp Hlen. apply key_plain.
  - unfold output_name. rewrite !has_slash_app.
    pose proof (NameTheorems.get_name_no_slash self).
    assert (~ has_slash ".md") by (unfold has_slash; simpl; intuition discriminate).
    tauto.
  - unfold output_name. rewrite !PyStrFacts.length_app. lia.
Qed.

Lemma output_names_differ (name stamp : string) :
  output_name name "_content_" stamp <> output_name name "_structure_" stamp.
Proof.
  unfold output_name. intros H. apply String.app_inj in H.
  vm_compute in H. discriminate H.
Qed.

(** The generator keeps its target, so its title, over a run. *)
Lemma get_name_after_run (env : Env) (self : t) (w : World) :
  _get_name (generate_markdowns env self w).1.1 = _get_name self.
Proof.
  rewrite generate_markdowns_unfold. simpl. unfold acquire.
  destruct (is_github self) eqn:Hgh.
  - destruct (mkdtemp env) as [d|e]; [|done]. simpl.
    destruct (clone_from env _) as [es|e [es|]]; simpl;
      unfold _get_name; simpl; by rewrite Hgh.
  - by destruct (path_exists w _).
Qed.

Lemma local_run_world (env : Env) (self : t) (w : World) :
  is_github self = false -> (generate_markdowns env self w).1.2 = w.
Proof.
  intros Hgh. rewrite generate_markdowns_unfold, acquire_local by done.
  simpl. by rewrite release_local.
Qed.

(** [main] with one argument, in terms of the run of the pipeline. *)
Lemma main_one_argument (env : Env) (argv : list string) (w : World) :
  length argv = 2%nat ->
  let target := nth 1 argv "" in
  let self := init env target None in
  let run := generate_markdowns env self (print ("Processing: " +:+ target) w) in
  let cfile := output_name (_get_name self) "_content_" (now_compact env) in
  let sfile := output_name (_get_name self) "_structure_" (now_compact env) in
  main env argv w =
    match run.2 with
    | Raise e => (print (error_line e) run.1.2, 1%Z)
    | Return (content_md, structure_md, _) =>
        match write_file env cfile content_md run.1.2 with
        | (w1, Raise e) => (print (error_line e) w1, 1%Z)
        | (w1, Return _) =>
            match write_file env sfile structure_md w1 with
            | (w2, Raise e) => (print (error_line e) w2, 1%Z)
            | (w2, Return _) =>
                (print ("- ディレクトリ構造: " +:+ sfile)
                   (print ("- ファイル内容: " +:+ cfile)
                      (print "生成完了:" w2)), 0%Z)
            end
        end
    end.
Proof.
  intros Hlen target self run cfile sfile. unfold main. rewrite Hlen. simpl.
  fold target. fold self. fold run.
  pose proof (get_name_after_run env self
                (print ("Processing: " +:+ target) w)) as Hname.
  fold run in Hname. subst cfile sfile. rewrite <- Hname.
  destruct run as [[g w1] [[[c s] fs]|e]]; done.
Qed.

End MainFacts.

Module MainTheorems.
Import PyStr PurePath NameSpec MarkdownGenerator Aux MainFacts.

(** X14: when [main] succeeds, the current directory holds the file
    [{name}_content_{stamp}.md] with the content document and the file
    [{name}_structure_{stamp}.md] with the structure document, and nothing
    else on the disk differs from what the pipeline left.  The time stamp
    has no '/' in it. *)
Theorem main_writes_both_files (env : Env) (argv : list string) (w : World)
    (content structure : string) (files : list FileInfo.t) :
  let target := nth 1 argv "" in
  let self := init env target None in
  let run := generate_markdowns env self (print ("Processing: " +:+ target) w) in
  let cfile := output_name (_get_name self) "_content_" (now_compact env) in
  let sfile := output_name (_get_name self) "_structure_" (now_compact env) in
  length argv = 2%nat ->
  ~ has_slash (now_compact env) ->
  run.2 = Return (content, structure, files) ->
  open_error env cfile = None ->
  open_error env sfile = None ->
  (main env argv w).2 = 0%Z
  /\ disk (main env argv w).1 !! cfile = Some (File content)
  /\ disk (main env argv w).1 !! sfile = Some (File structure)
  /\ forall k, k <> cfile -> k <> sfile ->
       disk (main env argv w).1 !! k = disk run.1.2 !! k.
Proof.
  intros target self run cfile sfile Hlen Hstamp Hrun Hc Hs.
  rewrite (main_one_argument env argv w Hlen).
  fold target self run cfile sfile. rewrite Hrun.
  unfold write_file. rewrite Hc, Hs. simpl.
  assert (Hkc : key (of_string cfile) = cfile).
  { apply output_name_key; [|done|simpl; lia].
    unfold has_slash. simpl. intuition discriminate. }
  assert (Hks : key (of_string sfile) = sfile).
  { apply output_name_key; [|done|simpl; lia].
    unfold has_slash. simpl. intuition discriminate. }
  rewrite Hkc, Hks.
  pose proof (output_names_differ (_get_name self) (now_compact env)) as Hne.
  fold cfile sfile in Hne.
  split; [done|]. split; [|split].
  - rewrite lookup_insert_ne by congruence. apply lookup_insert_eq.
  - apply lookup_insert_eq.
  - intros k Hk1 Hk2. by rewrite !lookup_insert_ne by congruence.
Qed.

Lemma main_writes_both_files_witness :
  (main Sample.env_clone_ok ["main.py"; "repo"] Sample.world).2 = 0%Z
  /\ disk (main Sample.env_clone_ok ["main.py"; "repo"] Sample.world).1
       !! "repo_content_20240101_000000.md"
     = Some (File (_create_content_markdown Sample.files)).
Proof.
  pose proof (main_writes_both_files Sample.env_clone_ok ["main.py"; "repo"]
                Sample.world (_create_content_markdown Sample.files)
                (_create_structure_markdown Sample.env_clone_ok
                   (init Sample.env_clone_ok "repo" None)
                   ("└── repo" +:+ nl +:+ "    ├── a" +:+ nl
                      +:+ "    │   ├── x.py" +:+ nl
                      +:+ "    │   └── y.md" +:+ nl
                      +:+ "    └── b.txt" +:+ nl))
                Sample.files) as H.
  cbv zeta in H.
  destruct H as (H0 & Hc & _); try reflexivity.
  { unfold has_slash. simpl. intuition discriminate. }
  split; [exact H0 | exact Hc].
Defined.

(** X15: when the content file has been written and the structure file
    cannot be opened, [main] returns 1 and the content file stays on the
    disk. *)
Theorem failed_structure_write_keeps_content_file (env : Env)
    (argv : list string) (w : World) (content structure : string)
    (files : list FileInfo.t) (e : exn) :
  let target := nth 1 argv "" in
  let self := init env target None in
  let run := generate_markdowns env self (print ("Processing: " +:+ target) w) in
  let cfile := output_name (_get_name self) "_content_" (now_compact env) in
  let sfile := output_name (_get_name self) "_structure_" (now_compact env) in
  length argv = 2%nat ->
  ~ has_slash (now_compact env) ->
  run.2 = Return (content, structure, files) ->
  open_error env cfile = None ->
  open_error env sfile = Some e ->
  (main env argv w).2 = 1%Z
  /\ disk (main env argv w).1 !! cfile = Some (File content)
  /\ forall k, k <> cfile ->
       disk (main env argv w).1 !! k = disk run.1.2 !! k.
Proof.
  intros target self run cfile sfile Hlen Hstamp Hrun Hc Hs.
  rewrite (main_one_argument env argv w Hlen).
  fold target self run cfile sfile. rewrite Hrun.
  unfold write_file. rewrite Hc, Hs. simpl.
  assert (Hkc : key (of_string cfile) = cfile).
  { apply output_name_key; [|done|simpl; lia].
    unfold has_slash. simpl. intuition discriminate. }
  rewrite Hkc. split; [done|]. split; [apply lookup_insert_eq|].
  intros k Hk. by rewrite lookup_insert_ne by congruence.
Qed.

Lemma failed_structure_write_keeps_content_file_witness :
  (main Sample2.env_structure_unwritable ["main.py"; "repo"] Sample.world).2
    = 1%Z
  /\ disk (main Sample2.env_structure_unwritable ["main.py"; "repo"]
                Sample.world).1
       !! "repo_content_20240101_000000.md"
     = Some (File (_create_content_markdown Sample.files)).
Proof.
  pose proof (failed_structure_write_keeps_content_file
                Sample2.env_structure_unwritable ["main.py"; "repo"]
                Sample.world (_create_content_markdown Sample.files)
                (_create_structure_markdown Sample2.env_structure_unwritable
                   (init Sample2.env_structure_unwritable "repo" None)
                   ("└── repo" +:+ nl +:+ "    ├── a" +:+ nl
                      +:+ "    │   ├── x.py" +:+ nl
                      +:+ "    │   └── y.md" +:+ nl
                      +:+ "    └── b.txt" +:+ nl))
                Sample.files
                (OtherError "PermissionError" "[Errno 13] Permission denied"))
    as H.
  cbv zeta in H.
  destruct H as (H1 & Hc & _); try reflexivity.
  { unfold has_slash. simpl. intuition discriminate. }
  split; [exact H1 | exact Hc].
Defined.

(** X16: when [main] fails before any document is made, it writes
    nothing: with a wrong number of arguments, and with a pipeline that
    raises on a local target or on a remote target whose temporary
    directory was new, the disk is afterwards as it was before. *)
Theorem failed_run_writes_nothing (env : Env) (argv : list string)
    (w : World) :
  let target := nth 1 argv "" in
  let self := init env target None in
  let run := generate_markdowns env self (print ("Processing: " +:+ target) w) in
  (length argv <> 2%nat -> disk (main env argv w).1 = disk w)
  /\ (length argv = 2%nat -> forall e,
        run.2 = Raise e ->
        is_github self = false
        \/ (forall d, mkdtemp env = Return d ->
                      path_exists w (of_string d) = false) ->
        disk (main env argv w).1 = disk w).
Proof.
  intros target self run. split.
  - intros Hlen. unfold main.
    destruct (Nat.eqb_spec (length argv) 2); [done|]. done.
  - intros Hlen e Hrun Hclean.
    rewrite (main_one_argument env argv w Hlen).
    fold target self run. rewrite Hrun. simpl.
    assert (run.1.2 = print ("Processing: " +:+ target) w) as ->; [|done].
    destruct (is_github self) eqn:Hgh.
    + destruct Hclean as [Hlocal|Hfresh]; [done|].
      by apply PipelineTheorems.fresh_generator_leaves_no_trace.
    + by apply local_run_world.
Qed.

Lemma failed_run_writes_nothing_witness :
  disk (main Sample.env_clone_fails ["main.py"; Sample.url] Sample.world).1
    = disk Sample.world.
Proof.
  apply (failed_run_writes_nothing Sample.env_clone_fails
           ["main.py"; Sample.url] Sample.world)
    with (e := OtherError "GitCommandError" "Cmd('git') failed");
    [reflexivity | reflexivity |].
  right. intros d [= <-]. reflexivity.
Defined.

End MainTheorems.
